(** * callosum.rpc.message: the RPC wire codec

    A shallow embedding of [src/callosum/rpc/message.py]: the metadata
    variants with their positional tuple encoding, the message-type
    enumeration, the type-to-variant table, the [RPCMessage] envelope, its
    four reply builders and its [encode] / [decode] pair.

    Python raises; the embedding returns [outcome A], a sum of an exception
    value and a result, and sequences calls in the order the interpreter
    evaluates them, so the first exception raised is the one returned. *)

From Stdlib Require Import ZArith List String Ascii Bool Lia.
From Stdlib.Strings Require Import Byte.
Import ListNotations.
Local Open Scope string_scope.
Local Open Scope list_scope.
Local Open Scope Z_scope.

Set Warnings "-register-all".

Set Implicit Arguments.

(* ===================================================================== *)
(** ** Python values                                                      *)
(* ===================================================================== *)

Definition bytes := list Byte.byte.

(** The dynamically typed values that travel through this module: what the
    envelope fields hold and what the unpacker can hand back.  Floats and
    msgpack extension objects are outside the model. *)
Inductive pyval : Type :=
| PNone
| PBool (b : bool)
| PInt (z : Z)
| PStr (s : string)
| PBytes (b : bytes)
| PList (l : list pyval)
| PTuple (l : list pyval)
| PDict (kvs : list (pyval * pyval)).

(** Exceptions, by class.  [ExternalError] stands for whatever a
    collaborator (packer, compressor, user serializer) raises. *)
Inductive exn : Type :=
| ConfigurationError (msg : string)
| ValueError
| KeyError (key : string)
| TypeError
| IndexError
| AttributeError
| ExternalError (tag : string).

Inductive outcome (A : Type) : Type :=
| Ok (a : A)
| Raise (e : exn).
Arguments Ok {A} a.
Arguments Raise {A} e.

Definition bind {A B : Type} (c : outcome A) (k : A -> outcome B) : outcome B :=
  match c with
  | Ok a => k a
  | Raise e => Raise e
  end.

Declare Scope py_scope.
Delimit Scope py_scope with py.
Notation "x <- c ;; k" := (bind c (fun x => k))
  (at level 61, c at next level, right associativity) : py_scope.
Local Open Scope py_scope.

(** [bool(v)]: Python truthiness, as used by [if compressed:] and
    [if not buffer:]. *)
Definition truthy (v : pyval) : bool :=
  match v with
  | PNone => false
  | PBool b => b
  | PInt z => negb (z =? 0)
  | PStr s => negb (String.length s =? 0)%nat
  | PBytes b => negb (List.length b =? 0)%nat
  | PList l => negb (List.length l =? 0)%nat
  | PTuple l => negb (List.length l =? 0)%nat
  | PDict kvs => negb (List.length kvs =? 0)%nat
  end.

(** Lookup of a [str] key in a dict: only a [str] key compares equal to it. *)
Fixpoint dict_get (kvs : list (pyval * pyval)) (k : string) : option pyval :=
  match kvs with
  | [] => None
  | (PStr k', v) :: rest => if String.eqb k' k then Some v else dict_get rest k
  | _ :: rest => dict_get rest k
  end.

(** [v[k]] for a string literal [k]: [KeyError] on a dict without the key,
    [TypeError] on everything that is not a mapping (sequences take integer
    indices, the scalars are not subscriptable). *)
Definition getitem (v : pyval) (k : string) : outcome pyval :=
  match v with
  | PDict kvs =>
      match dict_get kvs k with
      | Some x => Ok x
      | None => Raise (KeyError k)
      end
  | _ => Raise TypeError
  end.

(** [*v] in a call: the items an iterable yields.  A dict yields its keys, a
    string its characters, a bytes object its bytes as integers. *)
Fixpoint chars (s : string) : list pyval :=
  match s with
  | EmptyString => []
  | String c rest => PStr (String c EmptyString) :: chars rest
  end.

Definition star_args (v : pyval) : outcome (list pyval) :=
  match v with
  | PList l => Ok l
  | PTuple l => Ok l
  | PDict kvs => Ok (map fst kvs)
  | PStr s => Ok (chars s)
  | PBytes b => Ok (map (fun x => PInt (Z.of_N (Byte.to_N x))) b)
  | PNone | PBool _ | PInt _ => Raise TypeError
  end.

(** [v == z] for an integer [z]: [bool] is a subclass of [int], so [True]
    equals [1] and [False] equals [0]; nothing else modelled equals an int. *)
Definition py_eq_int (v : pyval) (z : Z) : bool :=
  match v with
  | PInt z' => z' =? z
  | PBool b => (if b then 1 else 0) =? z
  | _ => false
  end.

(* ===================================================================== *)
(** ** Collaborators                                                      *)
(* ===================================================================== *)

(** What the module imports and does not define: the packer pair of
    [callosum.serialize] and the optional [snappy] compressor, whose
    presence is recorded once, at import time, in [has_snappy]. *)
Class Runtime : Type := {
  mpackb : pyval -> outcome bytes;
  munpackb : bytes -> outcome pyval;
  has_snappy : bool;
  snappy_compress : bytes -> bytes;
  snappy_decompress : bytes -> outcome bytes
}.

(** [AbstractSerializer] and [AbstractDeserializer]: callables supplied by
    the caller. *)
Definition AbstractSerializer := pyval -> outcome pyval.
Definition AbstractDeserializer := pyval -> outcome pyval.

(** [munpackb(buffer)] on an arbitrary object: only a bytes object is
    accepted by the unpacker. *)
Definition munpackb_obj `{RT : Runtime} (buffer : pyval) : outcome pyval :=
  match buffer with
  | PBytes b => munpackb b
  | _ => Raise TypeError
  end.

(* ===================================================================== *)
(** ** Metadata variants                                                  *)
(* ===================================================================== *)

(** The five attrs classes deriving from [Metadata]. *)
Inductive MetadataClass : Type :=
| cls_FunctionMetadata
| cls_ResultMetadata
| cls_StreamMetadata
| cls_ErrorMetadata
| cls_NullMetadata.

(** Their instances.  The generated [__init__] stores its arguments as they
    come: the annotations [str] and [int] are not enforced. *)
Inductive Metadata : Type :=
| FunctionMetadata
| ResultMetadata
| StreamMetadata (resource_name length : pyval)
| ErrorMetadata (name traceback : pyval)
| NullMetadata.

(** [type(self)]. *)
Definition class_of (md : Metadata) : MetadataClass :=
  match md with
  | FunctionMetadata => cls_FunctionMetadata
  | ResultMetadata => cls_ResultMetadata
  | StreamMetadata _ _ => cls_StreamMetadata
  | ErrorMetadata _ _ => cls_ErrorMetadata
  | NullMetadata => cls_NullMetadata
  end.

(** [[getattr(self, f.name) for f in attr.fields(cls)]]: the field values in
    declaration order. *)
Definition field_values (md : Metadata) : list pyval :=
  match md with
  | FunctionMetadata => []
  | ResultMetadata => []
  | StreamMetadata resource_name length => [resource_name; length]
  | ErrorMetadata name traceback => [name; traceback]
  | NullMetadata => []
  end.

(** [cls] called on unpacked positional arguments; a wrong number of arguments is a
    [TypeError]. *)
Definition construct (cls : MetadataClass) (args : list pyval) : outcome Metadata :=
  match cls, args with
  | cls_FunctionMetadata, [] => Ok FunctionMetadata
  | cls_ResultMetadata, [] => Ok ResultMetadata
  | cls_StreamMetadata, [resource_name; length] => Ok (StreamMetadata resource_name length)
  | cls_ErrorMetadata, [name; traceback] => Ok (ErrorMetadata name traceback)
  | cls_NullMetadata, [] => Ok NullMetadata
  | _, _ => Raise TypeError
  end.

Module TupleEncodingMixin.

(** [decode(cls, buffer)]: a falsy buffer gives [None]; otherwise the
    buffer is unpacked and its items become the constructor arguments. *)
Definition decode `{RT : Runtime} (cls : MetadataClass) (buffer : pyval)
  : outcome (option Metadata) :=
  if negb (truthy buffer) then Ok None
  else
    unpacked <- munpackb_obj buffer ;;
    args <- star_args unpacked ;;
    md <- construct cls args ;;
    Ok (Some md).

(** [encode(self)]: the list of field values, packed. *)
Definition encode `{RT : Runtime} (self : Metadata) : outcome bytes :=
  let values := field_values self in
  mpackb (PList values).

End TupleEncodingMixin.

(* ===================================================================== *)
(** ** Message types and the type-to-variant table                        *)
(* ===================================================================== *)

Inductive RPCMessageTypes : Type :=
| FUNCTION
| STREAM
| RESULT
| FAILURE
| ERROR
| CANCEL.

(** [int(msgtype)]: the value of the [IntEnum] member. *)
Definition int_of (t : RPCMessageTypes) : Z :=
  match t with
  | FUNCTION => 0
  | STREAM => 1
  | RESULT => 2
  | FAILURE => 3
  | ERROR => 4
  | CANCEL => 5
  end.

Definition members : list RPCMessageTypes :=
  [FUNCTION; STREAM; RESULT; FAILURE; ERROR; CANCEL].

Definition RPCMessageTypes_eqb (a b : RPCMessageTypes) : bool :=
  int_of a =? int_of b.

(** [RPCMessageTypes(value)]: the member whose value equals [value], or
    [ValueError]. *)
Definition RPCMessageTypes_call (value : pyval) : outcome RPCMessageTypes :=
  match find (fun t => py_eq_int value (int_of t)) members with
  | Some t => Ok t
  | None => Raise ValueError
  end.

(** The module-level tuple [metadata_types], "mapped from RPCMessageTypes as
    index". *)
Definition metadata_types : list MetadataClass :=
  [ cls_FunctionMetadata;
    cls_StreamMetadata;
    cls_ResultMetadata;
    cls_ErrorMetadata;
    cls_ErrorMetadata;
    cls_NullMetadata ].

(** [metadata_types[msgtype]]. *)
Definition metadata_types_at (msgtype : RPCMessageTypes) : outcome MetadataClass :=
  match nth_error metadata_types (Z.to_nat (int_of msgtype)) with
  | Some cls => Ok cls
  | None => Raise IndexError
  end.

(** [msgtype in (RPCMessageTypes.FUNCTION, RPCMessageTypes.RESULT)]. *)
Definition in_FUNCTION_RESULT (msgtype : RPCMessageTypes) : bool :=
  existsb (RPCMessageTypes_eqb msgtype) [FUNCTION; RESULT].

(* ===================================================================== *)
(** ** The envelope                                                       *)
(* ===================================================================== *)

(** What [sys.exc_info()] and [traceback.format_exc()] report while an
    exception is being handled: the name of its class and the formatted
    stack trace.  Outside a handler there is none. *)
Record ExcInfo : Type := {
  exc_type_name : string;
  format_exc : string
}.

Module RPCMessage.

(** The frozen attrs class.  Field annotations are not enforced at
    construction, so [decode] can store any unpacked value. *)
Record t : Type := mk {
  msgtype : RPCMessageTypes;
  method : pyval;
  order_key : pyval;
  seq_id : pyval;
  metadata : option Metadata;
  body : pyval
}.

Definition request_id (self : t) : pyval * pyval * pyval :=
  (method self, order_key self, seq_id self).

Definition result (request : t) (result_body : pyval) : t :=
  mk RESULT
     (method request) (order_key request) (seq_id request)
     (Some ResultMetadata)
     result_body.

(** [exc_info[0].__name__] on the [None] that [sys.exc_info()] gives
    outside a handler is an [AttributeError]. *)
Definition failure (current : option ExcInfo) (request : t) : outcome t :=
  match current with
  | None => Raise AttributeError
  | Some exc_info =>
      Ok (mk FAILURE
             (method request) (order_key request) (seq_id request)
             (Some (ErrorMetadata (PStr (exc_type_name exc_info))
                                  (PStr (format_exc exc_info))))
             PNone)
  end.

Definition error (current : option ExcInfo) (request : t) : outcome t :=
  match current with
  | None => Raise AttributeError
  | Some exc_info =>
      Ok (mk ERROR
             (method request) (order_key request) (seq_id request)
             (Some (ErrorMetadata (PStr (exc_type_name exc_info))
                                  (PStr (format_exc exc_info))))
             PNone)
  end.

Definition cancel (request : t) : t :=
  mk CANCEL
     (method request) (order_key request) (seq_id request)
     (Some NullMetadata) PNone.

(** The header dict literal of [encode]. *)
Definition header_of (self : t) (compress : bool) : pyval :=
  PDict [ (PStr "type", PInt (int_of (msgtype self)));
          (PStr "meth", method self);
          (PStr "okey", order_key self);
          (PStr "seq", seq_id self);
          (PStr "zip", PBool compress) ].

(** The data dict literal of [encode]. *)
Definition data_of (metadata : bytes) (body : pyval) : pyval :=
  PDict [ (PStr "meta", PBytes metadata);
          (PStr "body", body) ].

Definition decode `{RT : Runtime} (raw_msg : bytes * bytes)
           (deserializer : AbstractDeserializer) : outcome t :=
  header <- munpackb (fst raw_msg) ;;
  type_field <- getitem header "type" ;;
  msgtype <- RPCMessageTypes_call type_field ;;
  compressed <- getitem header "zip" ;;
  let raw_data := snd raw_msg in
  raw_data <- (if truthy compressed then
                 if negb has_snappy then
                   Raise (ConfigurationError "python-snappy is not installed")
                 else snappy_decompress raw_data
               else Ok raw_data) ;;
  data <- munpackb raw_data ;;
  cls <- metadata_types_at msgtype ;;
  meta <- getitem data "meta" ;;
  metadata <- TupleEncodingMixin.decode cls meta ;;
  body <- (if in_FUNCTION_RESULT msgtype then
             raw_body <- getitem data "body" ;;
             deserializer raw_body
           else getitem data "body") ;;
  meth <- getitem header "meth" ;;
  okey <- getitem header "okey" ;;
  seq <- getitem header "seq" ;;
  Ok (mk msgtype meth okey seq metadata body).

Definition encode `{RT : Runtime} (self : t) (serializer : AbstractSerializer)
           (compress : bool) : outcome (bytes * bytes) :=
  metadata <- match metadata self with
              | Some md => TupleEncodingMixin.encode md
              | None => Ok []
              end ;;
  let header := header_of self compress in
  serialized_header <- mpackb header ;;
  body <- (if in_FUNCTION_RESULT (msgtype self) then serializer (body self)
           else Ok (body self)) ;;
  let data := data_of metadata body in
  serialized_data <- mpackb data ;;
  serialized_data <- (if compress then
                        if negb has_snappy then
                          Raise (ConfigurationError "python-snappy is not installed")
                        else Ok (snappy_compress serialized_data)
                      else Ok serialized_data) ;;
  Ok (serialized_header, serialized_data).

End RPCMessage.

(* ===================================================================== *)
(** ** A reference runtime                                                *)
(* ===================================================================== *)

(** Modelled from the spec: [mpackb] and [munpackb] come from
    [callosum/serialize.py] and the compressor from the [snappy] package,
    neither of which is among the sources.  The spec calls them the
    structured binary encoding and the general-purpose byte compressor;
    the docstring of [TupleEncodingMixin] names the encoding: msgpack.
    This module renders the msgpack wire format for the values of [pyval]
    (nil, booleans, integers of up to 64 bits, text, binary, arrays and
    maps keyed by text or binary), with arrays unpacked as tuples and text
    taken byte for byte, which is exact for ASCII.  It serves to run the
    codec on concrete frames; every general theorem below is stated for an
    arbitrary [Runtime]. *)
Module Msgpack.

Definition byte_of_Z (z : Z) : Byte.byte :=
  match Byte.of_N (Z.to_N (z mod 256)) with
  | Some b => b
  | None => Byte.x00
  end.

Definition Z_of_byte (b : Byte.byte) : Z := Z.of_N (Byte.to_N b).

(** [n] bytes of [z], most significant first. *)
Fixpoint big_endian (n : nat) (z : Z) : bytes :=
  match n with
  | O => []
  | S n' => byte_of_Z (Z.shiftr z (8 * Z.of_nat n')) :: big_endian n' z
  end.

Fixpoint of_big_endian (acc : Z) (b : bytes) : Z :=
  match b with
  | [] => acc
  | x :: rest => of_big_endian (acc * 256 + Z_of_byte x) rest
  end.

Definition pack_int (z : Z) : outcome bytes :=
  if (0 <=? z) && (z <? 128) then Ok [byte_of_Z z]
  else if (-32 <=? z) && (z <? 0) then Ok [byte_of_Z z]
  else if (128 <=? z) && (z <=? 255) then Ok (byte_of_Z 204 :: big_endian 1 z)
  else if (-128 <=? z) && (z <? 0) then Ok (byte_of_Z 208 :: big_endian 1 z)
  else if (255 <? z) && (z <=? 65535) then Ok (byte_of_Z 205 :: big_endian 2 z)
  else if (-32768 <=? z) && (z <? -128) then Ok (byte_of_Z 209 :: big_endian 2 z)
  else if (65535 <? z) && (z <=? 4294967295) then Ok (byte_of_Z 206 :: big_endian 4 z)
  else if (-2147483648 <=? z) && (z <? -32768) then Ok (byte_of_Z 210 :: big_endian 4 z)
  else if (4294967295 <? z) && (z <=? 18446744073709551615)
    then Ok (byte_of_Z 207 :: big_endian 8 z)
  else if (-9223372036854775808 <=? z) && (z <? -2147483648)
    then Ok (byte_of_Z 211 :: big_endian 8 z)
  else Raise (ExternalError "OverflowError").

(** The length prefix of a container: a short form folded into the tag
    below [fix_limit], then 16-bit and 32-bit forms. *)
Definition pack_len (fix_tag fix_limit tag16 tag32 : Z) (n : Z) : outcome bytes :=
  if n <? fix_limit then Ok [byte_of_Z (fix_tag + n)]
  else if n <=? 65535 then Ok (byte_of_Z tag16 :: big_endian 2 n)
  else if n <=? 4294967295 then Ok (byte_of_Z tag32 :: big_endian 4 n)
  else Raise (ExternalError "ValueError").

Definition pack_str_len (n : Z) : outcome bytes :=
  if n <? 32 then Ok [byte_of_Z (160 + n)]
  else if n <=? 255 then Ok (byte_of_Z 217 :: big_endian 1 n)
  else if n <=? 65535 then Ok (byte_of_Z 218 :: big_endian 2 n)
  else if n <=? 4294967295 then Ok (byte_of_Z 219 :: big_endian 4 n)
  else Raise (ExternalError "ValueError").

Definition pack_bin_len (n : Z) : outcome bytes :=
  if n <=? 255 then Ok (byte_of_Z 196 :: big_endian 1 n)
  else if n <=? 65535 then Ok (byte_of_Z 197 :: big_endian 2 n)
  else if n <=? 4294967295 then Ok (byte_of_Z 198 :: big_endian 4 n)
  else Raise (ExternalError "ValueError").

(** The items of an array and the entries of a map, one after the other. *)
Fixpoint pack_items (pack : pyval -> outcome bytes) (l : list pyval) : outcome bytes :=
  match l with
  | [] => Ok []
  | x :: rest =>
      px <- pack x ;;
      prest <- pack_items pack rest ;;
      Ok (px ++ prest)
  end.

Fixpoint pack_pairs (pack : pyval -> outcome bytes) (l : list (pyval * pyval))
  : outcome bytes :=
  match l with
  | [] => Ok []
  | (k, x) :: rest =>
      pk <- pack k ;;
      px <- pack x ;;
      prest <- pack_pairs pack rest ;;
      Ok (pk ++ px ++ prest)
  end.

Fixpoint packb (v : pyval) : outcome bytes :=
  match v with
  | PNone => Ok [byte_of_Z 192]
  | PBool false => Ok [byte_of_Z 194]
  | PBool true => Ok [byte_of_Z 195]
  | PInt z => pack_int z
  | PStr s =>
      let raw := list_byte_of_string s in
      prefix <- pack_str_len (Z.of_nat (List.length raw)) ;;
      Ok (prefix ++ raw)
  | PBytes raw =>
      prefix <- pack_bin_len (Z.of_nat (List.length raw)) ;;
      Ok (prefix ++ raw)
  | PList l | PTuple l =>
      prefix <- pack_len 144 16 220 221 (Z.of_nat (List.length l)) ;;
      items <- pack_items packb l ;;
      Ok (prefix ++ items)
  | PDict kvs =>
      prefix <- pack_len 128 16 222 223 (Z.of_nat (List.length kvs)) ;;
      items <- pack_pairs packb kvs ;;
      Ok (prefix ++ items)
  end.

(** Split [n] bytes off the front of a buffer. *)
Definition take (n : Z) (buf : bytes) : outcome (bytes * bytes) :=
  if Z.of_nat (List.length buf) <? n then Raise (ExternalError "msgpack.OutOfData")
  else Ok (firstn (Z.to_nat n) buf, skipn (Z.to_nat n) buf).

(** An unsigned big-endian integer of [n] bytes. *)
Definition take_uint (n : Z) (buf : bytes) : outcome (Z * bytes) :=
  r <- take n buf ;;
  Ok (of_big_endian 0 (fst r), snd r).

(** A two's complement big-endian integer of [n] bytes. *)
Definition take_int (n : Z) (buf : bytes) : outcome (Z * bytes) :=
  r <- take_uint n buf ;;
  let u := fst r in
  Ok ((if u <? 2 ^ (8 * n - 1) then u else u - 2 ^ (8 * n)), snd r).

Definition bytes_eqb (a b : bytes) : bool :=
  (List.length a =? List.length b)%nat
  && forallb (fun p => Byte.eqb (fst p) (snd p)) (combine a b).

Definition key_eqb (a b : pyval) : bool :=
  match a, b with
  | PStr x, PStr y => String.eqb x y
  | PBytes x, PBytes y => bytes_eqb x y
  | _, _ => false
  end.

(** [d[k] = v] on the association list of a dict under construction. *)
Fixpoint dict_set (kvs : list (pyval * pyval)) (k v : pyval) : list (pyval * pyval) :=
  match kvs with
  | [] => [(k, v)]
  | (k', v') :: rest =>
      if key_eqb k' k then (k', v) :: rest else (k', v') :: dict_set rest k v
  end.

(** Only text and binary keys are accepted in a map. *)
Definition check_key (k : pyval) : outcome pyval :=
  match k with
  | PStr _ | PBytes _ => Ok k
  | _ => Raise (ExternalError "ValueError")
  end.

(** [n] objects, and [n] key-value entries entered into a dict, read with
    the reader [unpack] of single objects. *)
Fixpoint unpack_items (unpack : bytes -> outcome (pyval * bytes)) (n : nat) (buf : bytes)
  : outcome (list pyval * bytes) :=
  match n with
  | O => Ok ([], buf)
  | S n' =>
      x <- unpack buf ;;
      r <- unpack_items unpack n' (snd x) ;;
      Ok (fst x :: fst r, snd r)
  end.

Fixpoint unpack_pairs (unpack : bytes -> outcome (pyval * bytes)) (n : nat)
         (acc : list (pyval * pyval)) (buf : bytes)
  : outcome (list (pyval * pyval) * bytes) :=
  match n with
  | O => Ok (acc, buf)
  | S n' =>
      k <- unpack buf ;;
      key <- check_key (fst k) ;;
      x <- unpack (snd k) ;;
      unpack_pairs unpack n' (dict_set acc key (fst x)) (snd x)
  end.

Definition unpack_array (unpack : bytes -> outcome (pyval * bytes)) (n : Z) (buf : bytes)
  : outcome (pyval * bytes) :=
  if Z.of_nat (List.length buf) <? n then Raise (ExternalError "msgpack.OutOfData")
  else r <- unpack_items unpack (Z.to_nat n) buf ;; Ok (PTuple (fst r), snd r).

Definition unpack_map (unpack : bytes -> outcome (pyval * bytes)) (n : Z) (buf : bytes)
  : outcome (pyval * bytes) :=
  if Z.of_nat (List.length buf) <? 2 * n then Raise (ExternalError "msgpack.OutOfData")
  else r <- unpack_pairs unpack (Z.to_nat n) [] buf ;; Ok (PDict (fst r), snd r).

Definition unpack_str (n : Z) (buf : bytes) : outcome (pyval * bytes) :=
  r <- take n buf ;; Ok (PStr (string_of_list_byte (fst r)), snd r).

Definition unpack_bin (n : Z) (buf : bytes) : outcome (pyval * bytes) :=
  r <- take n buf ;; Ok (PBytes (fst r), snd r).

(** A length of [width] bytes, then the body it announces. *)
Definition sized (width : Z) (k : Z -> bytes -> outcome (pyval * bytes)) (buf : bytes)
  : outcome (pyval * bytes) :=
  r <- take_uint width buf ;; k (fst r) (snd r).

Definition unpack_int (width : Z) (buf : bytes) : outcome (pyval * bytes) :=
  r <- take_int width buf ;; Ok (PInt (fst r), snd r).

Definition unpack_uint (width : Z) (buf : bytes) : outcome (pyval * bytes) :=
  r <- take_uint width buf ;; Ok (PInt (fst r), snd r).

(** One object off the front of a buffer, by its leading tag; [unpack]
    reads the objects nested in it. *)
Definition unpack_tagged (unpack : bytes -> outcome (pyval * bytes)) (buf : bytes)
  : outcome (pyval * bytes) :=
  match buf with
  | [] => Raise (ExternalError "msgpack.OutOfData")
  | tag :: rest =>
      let c := Z_of_byte tag in
      if c <? 128 then Ok (PInt c, rest)
      else if c <? 144 then unpack_map unpack (c - 128) rest
      else if c <? 160 then unpack_array unpack (c - 144) rest
      else if c <? 192 then unpack_str (c - 160) rest
      else if c =? 192 then Ok (PNone, rest)
      else if c =? 194 then Ok (PBool false, rest)
      else if c =? 195 then Ok (PBool true, rest)
      else if c =? 196 then sized 1 unpack_bin rest
      else if c =? 197 then sized 2 unpack_bin rest
      else if c =? 198 then sized 4 unpack_bin rest
      else if c =? 204 then unpack_uint 1 rest
      else if c =? 205 then unpack_uint 2 rest
      else if c =? 206 then unpack_uint 4 rest
      else if c =? 207 then unpack_uint 8 rest
      else if c =? 208 then unpack_int 1 rest
      else if c =? 209 then unpack_int 2 rest
      else if c =? 210 then unpack_int 4 rest
      else if c =? 211 then unpack_int 8 rest
      else if c =? 217 then sized 1 unpack_str rest
      else if c =? 218 then sized 2 unpack_str rest
      else if c =? 219 then sized 4 unpack_str rest
      else if c =? 220 then sized 2 (unpack_array unpack) rest
      else if c =? 221 then sized 4 (unpack_array unpack) rest
      else if c =? 222 then sized 2 (unpack_map unpack) rest
      else if c =? 223 then sized 4 (unpack_map unpack) rest
      else if 224 <=? c then Ok (PInt (c - 256), rest)
      else Raise (ExternalError "msgpack.FormatError")
  end.

(** The fuel bounds the nesting depth; a buffer never nests deeper than it
    is long. *)
Fixpoint unpack_one (fuel : nat) (buf : bytes) : outcome (pyval * bytes) :=
  match fuel with
  | O => Raise (ExternalError "msgpack.StackError")
  | S fuel' => unpack_tagged (unpack_one fuel') buf
  end.

(** [unpackb]: exactly one object, nothing after it. *)
Definition unpackb (buf : bytes) : outcome pyval :=
  r <- unpack_one (S (List.length buf)) buf ;;
  match snd r with
  | [] => Ok (fst r)
  | _ :: _ => Raise (ExternalError "msgpack.ExtraData")
  end.

End Msgpack.

(** Modelled from the spec: the optional compressor, [compress(bytes) ->
    bytes] and [decompress(bytes) -> bytes].  A store-only writer of the
    snappy block format (length preamble, then literal elements of at most
    60 bytes) and the matching reader, which refuses copy elements. *)
Module Snappy.

Import Msgpack.

(** The little-endian base-128 preamble. *)
Fixpoint varint (fuel : nat) (n : Z) : bytes :=
  match fuel with
  | O => []
  | S fuel' =>
      if n <? 128 then [byte_of_Z n]
      else byte_of_Z (128 + n mod 128) :: varint fuel' (n / 128)
  end.

Fixpoint literals (fuel : nat) (data : bytes) : bytes :=
  match fuel with
  | O => []
  | S fuel' =>
      match data with
      | [] => []
      | _ :: _ =>
          let chunk := firstn 60 data in
          byte_of_Z (4 * (Z.of_nat (List.length chunk) - 1))
            :: chunk ++ literals fuel' (skipn 60 data)
      end
  end.

(** The fuels are what the data at hand can use up: a length of [n] has at
    most [n + 1] base-128 digits, and [n] bytes fill at most [n] literals. *)
Definition compress (data : bytes) : bytes :=
  varint (S (List.length data)) (Z.of_nat (List.length data))
    ++ literals (List.length data) data.

Fixpoint read_varint (fuel : nat) (shift : Z) (buf : bytes) : outcome (Z * bytes) :=
  match fuel, buf with
  | S fuel', x :: rest =>
      let c := Z_of_byte x in
      if c <? 128 then Ok (Z.shiftl c shift, rest)
      else
        r <- read_varint fuel' (shift + 7) rest ;;
        Ok (Z.shiftl (c - 128) shift + fst r, snd r)
  | _, _ => Raise (ExternalError "snappy.UncompressError")
  end.

Fixpoint read_elements (fuel : nat) (buf : bytes) : outcome bytes :=
  match fuel, buf with
  | _, [] => Ok []
  | O, _ :: _ => Raise (ExternalError "snappy.UncompressError")
  | S fuel', tag :: rest =>
      let c := Z_of_byte tag in
      if (c mod 4 =? 0) && (c / 4 <? 60) then
        r <- match take (c / 4 + 1) rest with
             | Ok r => Ok r
             | Raise _ => Raise (ExternalError "snappy.UncompressError")
             end ;;
        more <- read_elements fuel' (snd r) ;;
        Ok (fst r ++ more)
      else Raise (ExternalError "snappy.UncompressError")
  end.

Definition decompress (buf : bytes) : outcome bytes :=
  r <- read_varint (List.length buf) 0 buf ;;
  data <- read_elements (List.length buf) (snd r) ;;
  if Z.of_nat (List.length data) =? fst r then Ok data
  else Raise (ExternalError "snappy.UncompressError").

End Snappy.

(** The reference runtime with the compressor installed, and without it
    (where the name [snappy] is unbound, and never reached). *)
Definition with_snappy : Runtime := {|
  mpackb := Msgpack.packb;
  munpackb := Msgpack.unpackb;
  has_snappy := true;
  snappy_compress := Snappy.compress;
  snappy_decompress := Snappy.decompress
|}.

Definition without_snappy : Runtime := {|
  mpackb := Msgpack.packb;
  munpackb := Msgpack.unpackb;
  has_snappy := false;
  snappy_compress := fun data => data;
  snappy_decompress := fun _ => Raise (ExternalError "NameError")
|}.

(** A serializer that hands its argument back, for bodies that already are
    bytes. *)
Definition noop : AbstractSerializer := fun v => Ok v.

(* ===================================================================== *)
(** ** Vocabulary of the statements                                       *)
(* ===================================================================== *)

(** The variant present is the one the table gives for the declared type,
    or there is no metadata. *)
Definition variant_matches (m : RPCMessage.t) : Prop :=
  match RPCMessage.metadata m with
  | Some md => metadata_types_at (RPCMessage.msgtype m) = Ok (class_of md)
  | None => True
  end.

(** The packer renders [v] as [b] and the unpacker reads [v] back. *)
Definition packs `{RT : Runtime} (v : pyval) (b : bytes) : Prop :=
  mpackb v = Ok b /\ munpackb b = Ok v.

(** The packer renders the field list as a non-empty buffer [b], and the
    unpacker reads back a sequence of the same items. *)
Definition packs_fields `{RT : Runtime} (values : list pyval) (b : bytes) : Prop :=
  mpackb (PList values) = Ok b /\ b <> [] /\
  exists u, munpackb b = Ok u /\ star_args u = Ok values.

(** The second frame as [decode] parses it: unzipped when the header says
    so, then unpacked. *)
Definition unpacked_frames `{RT : Runtime} (raw_msg : bytes * bytes)
  : outcome (pyval * pyval) :=
  header <- munpackb (fst raw_msg) ;;
  compressed <- getitem header "zip" ;;
  raw_data <- (if truthy compressed then
                 if negb has_snappy then
                   Raise (ConfigurationError "python-snappy is not installed")
                 else snappy_decompress (snd raw_msg)
               else Ok (snd raw_msg)) ;;
  data <- munpackb raw_data ;;
  Ok (header, data).

(** The second frame as [encode] builds it from the packed data. *)
Definition body_frame `{RT : Runtime} (compress : bool) (packed : bytes) : bytes :=
  if compress then snappy_compress packed else packed.

(** The metadata buffer [encode] starts from. *)
Definition metadata_buffer `{RT : Runtime} (m : RPCMessage.t) (mb : bytes) : Prop :=
  match RPCMessage.metadata m with
  | Some md => TupleEncodingMixin.encode md = Ok mb
  | None => mb = []
  end.

(** The payload [encode] puts under ['body'], and the body [decode]
    returns for what it finds there. *)
Definition payload_of (s : AbstractSerializer) (m : RPCMessage.t) (payload : pyval)
  : Prop :=
  if in_FUNCTION_RESULT (RPCMessage.msgtype m) then s (RPCMessage.body m) = Ok payload
  else payload = RPCMessage.body m.

Definition body_from (d : AbstractDeserializer) (msgtype : RPCMessageTypes)
           (raw_body body : pyval) : Prop :=
  if in_FUNCTION_RESULT msgtype then d raw_body = Ok body
  else body = raw_body.

(** Frames and messages the statements are run on. *)
Definition request_add : RPCMessage.t :=
  RPCMessage.mk FUNCTION (PStr "add") (PStr "") (PInt 1) (Some FunctionMetadata)
                (PBytes [x92; x02; x03]).

Definition value_error : ExcInfo := {|
  exc_type_name := "ValueError";
  format_exc := "Traceback (most recent call last): ValueError: bad input"
|}.

Definition chunk : RPCMessage.t :=
  RPCMessage.mk STREAM (PStr "feed") (PStr "k") (PInt 7)
                (Some (StreamMetadata (PStr "log") (PInt 3)))
                (PBytes [x61; x62; x63]).

Definition failure_reply : RPCMessage.t :=
  RPCMessage.mk FAILURE (PStr "add") (PStr "") (PInt 1)
                (Some (ErrorMetadata (PStr "ValueError") (PStr "bad input")))
                PNone.

(** Its two frames under the reference runtime, uncompressed. *)
Definition failure_frames : bytes * bytes :=
  Eval vm_compute in
    match RPCMessage.encode (RT := without_snappy) failure_reply noop false with
    | Ok raw => raw
    | Raise _ => ([], [])
    end.

(** The frames of a reply whose ['meta'] is the empty buffer: the header
    map with the given type tag and [zip] false, and the map
    [{'meta': b'', 'body': b'a'}]. *)
Definition bare_header (tag : Byte.byte) : bytes :=
  [ x85; xa4; x74; x79; x70; x65; tag;
    xa4; x6d; x65; x74; x68; xa1; x66;
    xa4; x6f; x6b; x65; x79; xa1; x6b;
    xa3; x73; x65; x71; x01;
    xa3; x7a; x69; x70; xc2 ].

Definition bare_data : bytes :=
  [ x82; xa4; x6d; x65; x74; x61; xc4; x00;
    xa4; x62; x6f; x64; x79; xc4; x01; x61 ].

(** The same header with [zip] true. *)
Definition zipped_header (tag : Byte.byte) : bytes :=
  [ x85; xa4; x74; x79; x70; x65; tag;
    xa4; x6d; x65; x74; x68; xa1; x66;
    xa4; x6f; x6b; x65; x79; xa1; x6b;
    xa3; x73; x65; x71; x01;
    xa3; x7a; x69; x70; xc3 ].

(** A serializer that is not the identity, and its inverse: the value
    codec of a caller that marks each payload with a leading byte. *)
Definition marking_serializer : AbstractSerializer :=
  fun v =>
    match v with
    | PBytes b => Ok (PBytes (x01 :: b))
    | _ => Raise TypeError
    end.

Definition marking_deserializer : AbstractDeserializer :=
  fun v =>
    match v with
    | PBytes (x01 :: b) => Ok (PBytes b)
    | _ => Raise (ExternalError "ValueError")
    end.

(** A STREAM message carrying the variant of FAILURE and ERROR. *)
Definition mistagged : RPCMessage.t :=
  RPCMessage.mk STREAM (PStr "feed") (PStr "k") (PInt 7)
                (Some (ErrorMetadata (PStr "log") (PInt 3)))
                (PBytes [x61; x62; x63]).

(** The frames [encode] gives for a message, for use on messages known to
    encode. *)
Definition frames_of (RT : Runtime) (m : RPCMessage.t) (s : AbstractSerializer)
           (compress : bool) : bytes * bytes :=
  match RPCMessage.encode m s compress with
  | Ok raw => raw
  | Raise _ => ([], [])
  end.

Definition chunk_frames : bytes * bytes :=
  Eval vm_compute in frames_of without_snappy chunk noop false.

Definition request_frames_zipped : bytes * bytes :=
  Eval vm_compute in frames_of with_snappy request_add marking_serializer true.

Definition mistagged_frames : bytes * bytes :=
  Eval vm_compute in frames_of without_snappy mistagged noop false.

(** The values without items: what the annotated fields of a message
    hold. *)
Definition scalar (v : pyval) : bool :=
  match v with
  | PNone | PBool _ | PInt _ | PStr _ | PBytes _ => true
  | PList _ | PTuple _ | PDict _ => false
  end.

(** What can key a map: text or binary. *)
Definition is_key (v : pyval) : bool :=
  match v with
  | PStr _ | PBytes _ => true
  | _ => false
  end.

(** The dict that entering the entries one by one builds. *)
Definition dict_of (kvs acc : list (pyval * pyval)) : list (pyval * pyval) :=
  fold_left (fun a kv => Msgpack.dict_set a (fst kv) (snd kv)) kvs acc.

(** The reference runtime, with or without the compressor. *)
Definition reference (installed : bool) : Runtime :=
  if installed then with_snappy else without_snappy.

(** The header fields and the metadata fields are scalars, as their
    annotations ([str], [int]) require. *)
Definition scalar_fields (m : RPCMessage.t) : bool :=
  scalar (RPCMessage.method m) && scalar (RPCMessage.order_key m)
  && scalar (RPCMessage.seq_id m)
  && match RPCMessage.metadata m with
     | Some md => forallb scalar (field_values md)
     | None => true
     end.

(** [len(attr.fields(cls))]: the number of positional arguments the
    generated [__init__] of a class takes. *)
Definition arity (cls : MetadataClass) : nat :=
  match cls with
  | cls_FunctionMetadata => 0
  | cls_ResultMetadata => 0
  | cls_StreamMetadata => 2
  | cls_ErrorMetadata => 2
  | cls_NullMetadata => 0
  end.

(** The frames of [chunk] with one more entry in each map: a header that
    also says [ver: 2] and a data map that also says [pad: None]. *)
Definition chunk_frames_padded : bytes * bytes :=
  Eval vm_compute in
    match Msgpack.packb
            (PDict [ (PStr "ver", PInt 2);
                     (PStr "type", PInt 1); (PStr "meth", PStr "feed");
                     (PStr "okey", PStr "k"); (PStr "seq", PInt 7);
                     (PStr "zip", PBool false) ]),
          Msgpack.packb
            (PDict [ (PStr "meta", PBytes [x92; xa3; x6c; x6f; x67; x03]);
                     (PStr "pad", PNone);
                     (PStr "body", PBytes [x61; x62; x63]) ])
    with
    | Ok h, Ok b => (h, b)
    | _, _ => ([], [])
    end.

(** A FUNCTION request whose body the marking serializer refuses. *)
Definition request_without_body : RPCMessage.t :=
  RPCMessage.mk FUNCTION (PStr "add") (PStr "") (PInt 1) (Some FunctionMetadata) PNone.

Unset Implicit Arguments.

(* ===================================================================== *)
(** ** Sequencing lemmas                                                  *)
(* ===================================================================== *)

Lemma bind_Ok {A B : Type} (c : outcome A) (k : A -> outcome B) (b : B) :
  bind c k = Ok b <-> exists a, c = Ok a /\ k a = Ok b.
Proof.
  split.
  - destruct c as [a | e]; simpl; intros Hk; [eauto | discriminate].
  - intros [a [-> Hk]]. exact Hk.
Qed.

Lemma bind_Raise {A B : Type} (c : outcome A) (k : A -> outcome B) (e : exn) :
  bind c k = Raise e <-> c = Raise e \/ exists a, c = Ok a /\ k a = Raise e.
Proof.
  split.
  - destruct c as [a | e']; simpl; intros Hk; [right; eauto | left; congruence].
  - intros [-> | [a [-> Hk]]]; [reflexivity | exact Hk].
Qed.

(** Take a successful sequence apart, one call at a time. *)
Ltac unbind H :=
  let a := fresh "a" in
  let Ha := fresh "E" in
  apply bind_Ok in H; destruct H as [a [Ha H]].

(** Close a goal [Ok x = Ok y -> ...] left by a case split. *)
Ltac by_ok :=
  let E := fresh "E" in
  intros E; injection E; intros; subst; auto.

(** Run a sequence forward along the equations in the context. *)
Ltac run :=
  repeat match goal with
         | H : ?c = Ok _ |- context [bind ?c _] => rewrite H; cbn [bind]
         | H : ?c = Raise _ |- context [bind ?c _] => rewrite H; cbn [bind]
         end.

(* ===================================================================== *)
(** ** The enumeration and the table                                      *)
(* ===================================================================== *)

Lemma RPCMessageTypes_call_int (t : RPCMessageTypes) :
  RPCMessageTypes_call (PInt (int_of t)) = Ok t.
Proof. destruct t; reflexivity. Qed.

Lemma RPCMessageTypes_call_Ok (v : pyval) (t : RPCMessageTypes) :
  RPCMessageTypes_call v = Ok t -> py_eq_int v (int_of t) = true.
Proof.
  unfold RPCMessageTypes_call.
  destruct (find _ members) as [t' |] eqn:F; [| discriminate].
  intros [= <-]. apply find_some in F. apply F.
Qed.

Lemma RPCMessageTypes_call_ValueError (v : pyval) :
  (forall t, py_eq_int v (int_of t) = false) ->
  RPCMessageTypes_call v = Raise ValueError.
Proof.
  intros H. unfold RPCMessageTypes_call, members. cbn [find].
  rewrite !H. reflexivity.
Qed.

Lemma metadata_types_at_total (t : RPCMessageTypes) :
  exists cls, metadata_types_at t = Ok cls.
Proof. destruct t; eexists; reflexivity. Qed.

Lemma in_FUNCTION_RESULT_spec (t : RPCMessageTypes) :
  in_FUNCTION_RESULT t = true <-> t = FUNCTION \/ t = RESULT.
Proof.
  destruct t; simpl; split; intros H; try reflexivity; try discriminate;
    auto; destruct H; discriminate.
Qed.

(* ===================================================================== *)
(** ** Concrete runs                                                      *)
(* ===================================================================== *)

(** The frames of a stream chunk: the header map of five entries, then the
    map of the packed fields [("log", 3)] and the raw body. *)
Example encode_chunk :
  RPCMessage.encode (RT := without_snappy) chunk noop false
  = Ok ([ x85; xa4; x74; x79; x70; x65; x01;
          xa4; x6d; x65; x74; x68; xa4; x66; x65; x65; x64;
          xa4; x6f; x6b; x65; x79; xa1; x6b;
          xa3; x73; x65; x71; x07;
          xa3; x7a; x69; x70; xc2 ],
        [ x82; xa4; x6d; x65; x74; x61; xc4; x06; x92; xa3; x6c; x6f; x67; x03;
          xa4; x62; x6f; x64; x79; xc4; x03; x61; x62; x63 ]).
Proof. vm_compute. reflexivity. Qed.

Example decode_chunk :
  RPCMessage.decode (RT := without_snappy) chunk_frames noop = Ok chunk.
Proof. vm_compute. reflexivity. Qed.

(** Zipped frames need the compressor on the receiving side too. *)
Example decode_zipped :
  RPCMessage.decode (RT := with_snappy) request_frames_zipped marking_deserializer
    = Ok request_add /\
  RPCMessage.decode (RT := without_snappy) request_frames_zipped marking_deserializer
    = Raise (ConfigurationError "python-snappy is not installed").
Proof. split; vm_compute; reflexivity. Qed.

(** Two fields for a class without fields: the constructor refuses. *)
Example decode_arity_mismatch :
  RPCMessage.decode (RT := without_snappy)
    (frames_of without_snappy
       (RPCMessage.mk FUNCTION (PStr "f") (PStr "k") (PInt 1)
                      (Some (ErrorMetadata (PStr "a") (PStr "b"))) PNone)
       noop false)
    noop
  = Raise TypeError.
Proof. vm_compute. reflexivity. Qed.

(** A header that is an empty map, a header that is not a map, no header. *)
Example decode_bad_header :
  RPCMessage.decode (RT := without_snappy) ([x80], bare_data) noop
    = Raise (KeyError "type") /\
  RPCMessage.decode (RT := without_snappy) ([x90], bare_data) noop
    = Raise TypeError /\
  RPCMessage.decode (RT := without_snappy) ([], bare_data) noop
    = Raise (ExternalError "msgpack.OutOfData").
Proof. repeat split; vm_compute; reflexivity. Qed.

(** The type is looked up before [zip] is: an unknown type wins. *)
Example decode_unknown_type_zipped :
  RPCMessage.decode (RT := without_snappy) (zipped_header x09, bare_data) noop
  = Raise ValueError.
Proof. vm_compute. reflexivity. Qed.

(** A sequence id beyond 64 bits does not pack. *)
Example encode_overflow :
  RPCMessage.encode (RT := without_snappy)
    (RPCMessage.mk FUNCTION (PStr "f") (PStr "k") (PInt (2 ^ 64)) None (PBytes []))
    noop false
  = Raise (ExternalError "OverflowError").
Proof. vm_compute. reflexivity. Qed.

(** A failure reply built while a [ValueError] is being handled. *)
Example failure_value_error :
  RPCMessage.failure (Some value_error) request_add
  = Ok (RPCMessage.mk FAILURE (PStr "add") (PStr "") (PInt 1)
          (Some (ErrorMetadata
                   (PStr "ValueError")
                   (PStr "Traceback (most recent call last): ValueError: bad input")))
          PNone).
Proof. reflexivity. Qed.

(** Outside an exception handler the error builders fail. *)
Example failure_without_exception :
  RPCMessage.failure None request_add = Raise AttributeError.
Proof. reflexivity. Qed.

(* ===================================================================== *)
(** ** What a successful [encode] and a successful [decode] went through  *)
(* ===================================================================== *)

Section WireCodec.

Context `{RT : Runtime}.

Import RPCMessage.

Lemma encode_Ok (m : t) (s : AbstractSerializer) (compress : bool)
      (raw : bytes * bytes) :
  encode m s compress = Ok raw <->
  exists mb payload db,
    metadata_buffer m mb /\
    mpackb (header_of m compress) = Ok (fst raw) /\
    payload_of s m payload /\
    mpackb (data_of mb payload) = Ok db /\
    (compress = true -> has_snappy = true) /\
    snd raw = body_frame compress db.
Proof.
  unfold encode, metadata_buffer, payload_of, body_frame. split.
  - intros H. unbind H. unbind H. unbind H. unbind H. unbind H.
    injection H as <-. exists a, a1, a2. simpl.
    repeat split.
    + revert E. destruct (metadata m); [trivial | by_ok].
    + assumption.
    + revert E1. destruct (in_FUNCTION_RESULT (msgtype m)); [trivial | by_ok].
    + assumption.
    + intros ->. revert E3. destruct has_snappy; [reflexivity | discriminate].
    + revert E3. destruct compress; [| by_ok].
      destruct has_snappy; simpl; [by_ok | discriminate].
  - intros (mb & payload & db & Hm & Hh & Hp & Hd & Hz & Hr).
    destruct raw as [hb zb]. simpl in Hh, Hr. subst zb.
    assert (Em : match metadata m with
                 | Some md => TupleEncodingMixin.encode md
                 | None => Ok []
                 end = Ok mb)
      by (revert Hm; destruct (metadata m); [trivial | intros ->; reflexivity]).
    rewrite Em. cbn [bind]. rewrite Hh. cbn [bind].
    assert (Ep : (if in_FUNCTION_RESULT (msgtype m) then s (body m)
                  else Ok (body m)) = Ok payload)
      by (revert Hp; destruct (in_FUNCTION_RESULT (msgtype m));
          [trivial | intros ->; reflexivity]).
    rewrite Ep. cbn [bind]. rewrite Hd. cbn [bind].
    destruct compress; [rewrite (Hz eq_refl) |]; reflexivity.
Qed.

Lemma decode_Ok (raw : bytes * bytes) (d : AbstractDeserializer) (m : t) :
  decode raw d = Ok m <->
  exists header data type_field cls meta raw_body,
    unpacked_frames raw = Ok (header, data) /\
    getitem header "type" = Ok type_field /\
    RPCMessageTypes_call type_field = Ok (msgtype m) /\
    metadata_types_at (msgtype m) = Ok cls /\
    getitem data "meta" = Ok meta /\
    TupleEncodingMixin.decode cls meta = Ok (metadata m) /\
    getitem data "body" = Ok raw_body /\
    body_from d (msgtype m) raw_body (body m) /\
    getitem header "meth" = Ok (method m) /\
    getitem header "okey" = Ok (order_key m) /\
    getitem header "seq" = Ok (seq_id m).
Proof.
  unfold decode, unpacked_frames, body_from. split.
  - intros H. do 13 unbind H. injection H as <-. simpl.
    exists a, a4, a0, a5, a6.
    assert (exists raw_body, getitem a4 "body" = Ok raw_body /\
              if in_FUNCTION_RESULT a1 then d raw_body = Ok a8 else a8 = raw_body)
      as [raw_body [Hb Hd]].
    { revert E8. destruct (in_FUNCTION_RESULT a1); intros E8.
      - unbind E8. eauto.
      - eauto. }
    exists raw_body. run. repeat split; assumption.
  - intros (header & data & ty & cls & meta & raw_body
            & Hf & Ht & Hc & Hcls & Hm & Hmd & Hb & Hd & Hme & Hok & Hsq).
    do 4 unbind Hf. injection Hf as <- <-. run.
    assert (Eb : (if in_FUNCTION_RESULT (msgtype m) then d raw_body
                  else Ok raw_body) = Ok (body m)).
    { revert Hd. destruct (in_FUNCTION_RESULT (msgtype m));
        [trivial | intros ->; reflexivity]. }
    rewrite Eb. cbn [bind]. destruct m; reflexivity.
Qed.

End WireCodec.

(* ===================================================================== *)
(** ** Reply builders                                                     *)
(* ===================================================================== *)

Section Builders.

Import RPCMessage.

Variable request : t.
Variable result_body : pyval.
Variable exc_info : ExcInfo.

Let error_metadata : Metadata :=
  ErrorMetadata (PStr (exc_type_name exc_info)) (PStr (format_exc exc_info)).

(** C6.  Each of [result], [failure], [error] and [cancel] copies
    [method], [order_key] and [seq_id] from the request and tags the reply
    RESULT, FAILURE, ERROR and CANCEL.  [result] carries the field-less
    [ResultMetadata] and the given body; [failure] and [error], called
    while an exception is being handled, carry an [ErrorMetadata] made of
    the exception's class name and the formatted traceback, and no body;
    [cancel] carries the field-less [NullMetadata] and no body. *)
Theorem builders_keep_correlation :
  let r := result request result_body in
  let c := cancel request in
  exists f e,
    failure (Some exc_info) request = Ok f /\
    error (Some exc_info) request = Ok e /\
    (request_id r = request_id request /\ request_id f = request_id request /\
     request_id e = request_id request /\ request_id c = request_id request) /\
    (method r = method request /\ order_key r = order_key request /\
     seq_id r = seq_id request) /\
    (method f = method request /\ order_key f = order_key request /\
     seq_id f = seq_id request) /\
    (method e = method request /\ order_key e = order_key request /\
     seq_id e = seq_id request) /\
    (method c = method request /\ order_key c = order_key request /\
     seq_id c = seq_id request) /\
    (msgtype r = RESULT /\ msgtype f = FAILURE /\
     msgtype e = ERROR /\ msgtype c = CANCEL) /\
    (metadata r = Some ResultMetadata /\ field_values ResultMetadata = [] /\
     body r = result_body) /\
    (metadata f = Some error_metadata /\ body f = PNone) /\
    (metadata e = Some error_metadata /\ body e = PNone) /\
    (metadata c = Some NullMetadata /\ field_values NullMetadata = [] /\
     body c = PNone).
Proof.
  simpl. do 2 eexists. split; [reflexivity |]. split; [reflexivity |].
  simpl. repeat split.
Qed.

End Builders.

(* ===================================================================== *)
(** ** Decoding the metadata                                              *)
(* ===================================================================== *)

Section MetadataDecoding.

Context `{RT : Runtime}.

Import RPCMessage.

Lemma construct_class (cls : MetadataClass) (args : list pyval) (md : Metadata) :
  construct cls args = Ok md -> class_of md = cls /\ field_values md = args.
Proof.
  destruct cls; destruct args as [| x [| y [| z rest]]]; simpl;
    intros E; try discriminate; injection E as <-; split; reflexivity.
Qed.

Lemma construct_fields (md : Metadata) :
  construct (class_of md) (field_values md) = Ok md.
Proof. destruct md; reflexivity. Qed.

Lemma mixin_decode_class (cls : MetadataClass) (meta : pyval) (md : Metadata) :
  TupleEncodingMixin.decode cls meta = Ok (Some md) -> class_of md = cls.
Proof.
  unfold TupleEncodingMixin.decode.
  destruct (negb (truthy meta)); [discriminate |].
  intros H. do 3 unbind H. injection H as <-.
  apply construct_class in E1. apply E1.
Qed.

Lemma mixin_decode_empty (cls : MetadataClass) :
  TupleEncodingMixin.decode cls (PBytes []) = Ok None.
Proof. reflexivity. Qed.

Lemma mixin_decode_fields (md : Metadata) (b : bytes) :
  packs_fields (field_values md) b ->
  TupleEncodingMixin.decode (class_of md) (PBytes b) = Ok (Some md).
Proof.
  intros (_ & Hne & u & Hu & Hs).
  unfold TupleEncodingMixin.decode. simpl.
  destruct b as [| x b]; [contradiction Hne; reflexivity |]. simpl.
  rewrite Hu. cbn [bind]. rewrite Hs. cbn [bind].
  rewrite construct_fields. reflexivity.
Qed.

(** A frame pair whose ['meta'] is the empty buffer decodes, whatever the
    type, to a message without metadata. *)
Lemma decode_empty_meta (raw : bytes * bytes) (d : AbstractDeserializer)
      (header data type_field raw_body b me ok sq : pyval) (ty : RPCMessageTypes) :
  unpacked_frames raw = Ok (header, data) ->
  getitem header "type" = Ok type_field ->
  RPCMessageTypes_call type_field = Ok ty ->
  getitem data "meta" = Ok (PBytes []) ->
  getitem data "body" = Ok raw_body ->
  body_from d ty raw_body b ->
  getitem header "meth" = Ok me ->
  getitem header "okey" = Ok ok ->
  getitem header "seq" = Ok sq ->
  decode raw d = Ok (mk ty me ok sq None b).
Proof.
  intros Hf Ht Hc Hm Hb Hd Hme Hok Hsq.
  destruct (metadata_types_at_total ty) as [cls Hcls].
  apply decode_Ok. exists header, data, type_field, cls, (PBytes []), raw_body.
  simpl. repeat split; assumption || apply mixin_decode_empty.
Qed.

(** C7.  [decode] picks the metadata class by indexing [metadata_types]
    with the message type; entries 0 to 5 are the function, stream,
    result, error, error and null classes.  A decoded FAILURE and a
    decoded ERROR both carry an [ErrorMetadata], and keep the distinct
    tag read from the header. *)
Theorem decode_indexes_metadata_types
        (raw : bytes * bytes) (d : AbstractDeserializer) (m : t) :
  decode raw d = Ok m ->
  map (fun i => nth_error metadata_types i) [0; 1; 2; 3; 4; 5]%nat
    = [ Some cls_FunctionMetadata; Some cls_StreamMetadata;
        Some cls_ResultMetadata; Some cls_ErrorMetadata;
        Some cls_ErrorMetadata; Some cls_NullMetadata ] /\
  (exists header data type_field meta cls,
      unpacked_frames raw = Ok (header, data) /\
      getitem header "type" = Ok type_field /\
      py_eq_int type_field (int_of (msgtype m)) = true /\
      nth_error metadata_types (Z.to_nat (int_of (msgtype m))) = Some cls /\
      getitem data "meta" = Ok meta /\
      TupleEncodingMixin.decode cls meta = Ok (metadata m) /\
      match metadata m with
      | Some md => class_of md = cls
      | None => truthy meta = false
      end) /\
  match msgtype m, metadata m with
  | (FAILURE | ERROR), Some md => exists name traceback, md = ErrorMetadata name traceback
  | _, _ => True
  end /\
  int_of FAILURE <> int_of ERROR.
Proof.
  intros H. apply decode_Ok in H.
  destruct H as (header & data & ty & cls & meta & raw_body
                 & Hf & Ht & Hc & Hcls & Hm & Hmd & _).
  split; [reflexivity |]. split; [| split; [| discriminate]].
  - exists header, data, ty, meta, cls.
    repeat split; try assumption.
    + apply RPCMessageTypes_call_Ok, Hc.
    + revert Hcls. unfold metadata_types_at.
      destruct (nth_error _ _); [by_ok | discriminate].
    + destruct (metadata m) as [md |] eqn:Em.
      * apply mixin_decode_class with (meta := meta), Hmd.
      * revert Hmd. unfold TupleEncodingMixin.decode.
        destruct (truthy meta); [| reflexivity]. simpl.
        intros H. do 3 unbind H. discriminate.
  - destruct (metadata m) as [md |] eqn:Em; [| destruct (msgtype m); exact I].
    apply mixin_decode_class in Hmd.
    destruct (msgtype m); try exact I;
      injection Hcls as <-; destruct md; try discriminate; eauto.
Qed.

End MetadataDecoding.

(** The theorem on the frames of a failure reply. *)
Lemma decode_indexes_metadata_types_witness :
  RPCMessage.decode (RT := without_snappy) failure_frames noop = Ok failure_reply /\
  nth_error metadata_types (Z.to_nat (int_of (RPCMessage.msgtype failure_reply)))
    = Some cls_ErrorMetadata /\
  exists name traceback,
    RPCMessage.metadata failure_reply = Some (ErrorMetadata name traceback).
Proof.
  assert (E : RPCMessage.decode (RT := without_snappy) failure_frames noop
              = Ok failure_reply) by (vm_compute; reflexivity).
  split; [exact E |]. split; [reflexivity |].
  destruct (decode_indexes_metadata_types (RT := without_snappy) _ _ _ E)
    as (_ & _ & T & _).
  simpl in T. destruct T as (name & traceback & ET).
  exists name, traceback. simpl. f_equal. exact ET.
Defined.

(* ===================================================================== *)
(** ** Headers with an unknown type; empty metadata buffers               *)
(* ===================================================================== *)

Section HeaderAndEmptyMetadata.

Context `{RT : Runtime}.

Import RPCMessage.

(** C9.  When the ['type'] field of the unpacked header equals none of
    the values 0 to 5, [decode] raises ([ValueError], from the enum
    lookup) and returns no message. *)
Theorem decode_unknown_type
        (raw : bytes * bytes) (d : AbstractDeserializer) (header type_field : pyval) :
  munpackb (fst raw) = Ok header ->
  getitem header "type" = Ok type_field ->
  (forall z, 0 <= z <= 5 -> py_eq_int type_field z = false) ->
  decode raw d = Raise ValueError /\ forall m, decode raw d <> Ok m.
Proof.
  intros Hh Ht Hz.
  assert (E : decode raw d = Raise ValueError).
  { unfold decode. rewrite Hh. cbn [bind]. rewrite Ht. cbn [bind].
    rewrite RPCMessageTypes_call_ValueError; [reflexivity |].
    intros ty. apply Hz. destruct ty; simpl; lia. }
  split; [exact E |]. intros m. rewrite E. discriminate.
Qed.

(** C10.  For every message type, the ones whose class has fields
    included, a frame pair whose metadata bytes are the empty buffer
    decodes successfully to a message whose metadata is [None]. *)
Theorem decode_empty_metadata_is_None
        (raw : bytes * bytes) (d : AbstractDeserializer)
        (header data type_field raw_body b me ok sq : pyval) (ty : RPCMessageTypes) :
  unpacked_frames raw = Ok (header, data) ->
  getitem header "type" = Ok type_field ->
  RPCMessageTypes_call type_field = Ok ty ->
  getitem data "meta" = Ok (PBytes []) ->
  getitem data "body" = Ok raw_body ->
  body_from d ty raw_body b ->
  getitem header "meth" = Ok me ->
  getitem header "okey" = Ok ok ->
  getitem header "seq" = Ok sq ->
  (exists m, decode raw d = Ok m /\ msgtype m = ty /\ metadata m = None) /\
  (forall cls, TupleEncodingMixin.decode cls (PBytes []) = Ok None).
Proof.
  intros Hf Ht Hc Hm Hb Hd Hme Hok Hsq. split.
  - exists (mk ty me ok sq None b). split; [| split; reflexivity].
    eapply decode_empty_meta; eassumption.
  - apply mixin_decode_empty.
Qed.

(** C4, as the code has it.  A field-less variant is encoded as the
    packed empty list, which the reference packer renders as the single
    byte 0x90 and not as an empty buffer; that buffer decodes, for the
    variant's own class, to the instance.  A zero-length metadata buffer
    decodes to [None]: under a RESULT, FAILURE or ERROR header as under
    any other, [decode] returns a message without metadata. *)
Theorem empty_variant_coding
        (md : Metadata) (packed : bytes)
        (raw : bytes * bytes) (d : AbstractDeserializer)
        (header data type_field raw_body b me ok sq : pyval) (ty : RPCMessageTypes) :
  field_values md = [] ->
  packs_fields [] packed ->
  unpacked_frames raw = Ok (header, data) ->
  getitem header "type" = Ok type_field ->
  RPCMessageTypes_call type_field = Ok ty ->
  ty = RESULT \/ ty = FAILURE \/ ty = ERROR ->
  getitem data "meta" = Ok (PBytes []) ->
  getitem data "body" = Ok raw_body ->
  body_from d ty raw_body b ->
  getitem header "meth" = Ok me ->
  getitem header "okey" = Ok ok ->
  getitem header "seq" = Ok sq ->
  TupleEncodingMixin.encode md = Ok packed /\
  TupleEncodingMixin.encode (RT := without_snappy) md = Ok [x90] /\
  TupleEncodingMixin.decode (class_of md) (PBytes packed) = Ok (Some md) /\
  decode raw d = Ok (mk ty me ok sq None b).
Proof.
  intros Hv Hp Hf Ht Hc _ Hm Hb Hd Hme Hok Hsq.
  repeat apply conj.
  - unfold TupleEncodingMixin.encode. rewrite Hv. apply Hp.
  - destruct md; try discriminate Hv; reflexivity.
  - apply mixin_decode_fields. rewrite Hv. exact Hp.
  - eapply decode_empty_meta; eassumption.
Qed.

End HeaderAndEmptyMetadata.

(** A header whose type is 9. *)
Lemma decode_unknown_type_witness :
  RPCMessage.decode (RT := without_snappy) (bare_header x09, bare_data) noop
    = Raise ValueError /\
  forall m,
    RPCMessage.decode (RT := without_snappy) (bare_header x09, bare_data) noop <> Ok m.
Proof.
  eapply (decode_unknown_type (RT := without_snappy) (bare_header x09, bare_data)
            noop _ (PInt 9)).
  - vm_compute. reflexivity.
  - vm_compute. reflexivity.
  - intros z Hz. unfold py_eq_int. apply Z.eqb_neq. lia.
Defined.

(** An ERROR reply whose ['meta'] is the empty buffer. *)
Lemma decode_empty_metadata_is_None_witness :
  (exists m,
      RPCMessage.decode (RT := without_snappy) (bare_header x04, bare_data) noop = Ok m /\
      RPCMessage.msgtype m = ERROR /\ RPCMessage.metadata m = None) /\
  (forall cls, TupleEncodingMixin.decode (RT := without_snappy) cls (PBytes []) = Ok None).
Proof.
  apply (decode_empty_metadata_is_None (RT := without_snappy)
           (bare_header x04, bare_data) noop
           (PDict [ (PStr "type", PInt 4); (PStr "meth", PStr "f");
                    (PStr "okey", PStr "k"); (PStr "seq", PInt 1);
                    (PStr "zip", PBool false) ])
           (PDict [ (PStr "meta", PBytes []); (PStr "body", PBytes [x61]) ])
           (PInt 4) (PBytes [x61]) (PBytes [x61]) (PStr "f") (PStr "k") (PInt 1) ERROR);
    vm_compute; reflexivity.
Defined.

(** C4 fails on the code: the field-less [ResultMetadata] is encoded as one
    byte, not as a zero-byte buffer, and a RESULT reply whose ['meta'] is
    the zero-length buffer decodes to a message whose metadata is [None],
    not [ResultMetadata()]. *)
Lemma empty_variant_counterexample :
  TupleEncodingMixin.encode (RT := without_snappy) ResultMetadata = Ok [x90] /\
  TupleEncodingMixin.encode (RT := without_snappy) ResultMetadata <> Ok [] /\
  RPCMessage.decode (RT := without_snappy) (bare_header x02, bare_data) noop
    = Ok (RPCMessage.mk RESULT (PStr "f") (PStr "k") (PInt 1) None (PBytes [x61])) /\
  RPCMessage.metadata (RPCMessage.mk RESULT (PStr "f") (PStr "k") (PInt 1) None
                                     (PBytes [x61]))
    <> Some ResultMetadata.
Proof.
  repeat apply conj.
  - vm_compute. reflexivity.
  - vm_compute. discriminate.
  - vm_compute. reflexivity.
  - simpl. discriminate.
Qed.

(** The amended statement on [ResultMetadata] and a RESULT reply. *)
Lemma empty_variant_coding_witness :
  TupleEncodingMixin.encode (RT := without_snappy) ResultMetadata = Ok [x90] /\
  TupleEncodingMixin.encode (RT := without_snappy) ResultMetadata = Ok [x90] /\
  TupleEncodingMixin.decode (RT := without_snappy) cls_ResultMetadata (PBytes [x90])
    = Ok (Some ResultMetadata) /\
  RPCMessage.decode (RT := without_snappy) (bare_header x02, bare_data) noop
    = Ok (RPCMessage.mk RESULT (PStr "f") (PStr "k") (PInt 1) None (PBytes [x61])).
Proof.
  apply (empty_variant_coding (RT := without_snappy) ResultMetadata [x90]
           (bare_header x02, bare_data) noop
           (PDict [ (PStr "type", PInt 2); (PStr "meth", PStr "f");
                    (PStr "okey", PStr "k"); (PStr "seq", PInt 1);
                    (PStr "zip", PBool false) ])
           (PDict [ (PStr "meta", PBytes []); (PStr "body", PBytes [x61]) ])
           (PInt 2) (PBytes [x61]) (PBytes [x61]) (PStr "f") (PStr "k") (PInt 1) RESULT).
  - reflexivity.
  - split; [vm_compute; reflexivity |].
    split; [discriminate |].
    exists (PTuple []). split; vm_compute; reflexivity.
  - vm_compute. reflexivity.
  - vm_compute. reflexivity.
  - vm_compute. reflexivity.
  - left. reflexivity.
  - vm_compute. reflexivity.
  - vm_compute. reflexivity.
  - vm_compute. reflexivity.
  - vm_compute. reflexivity.
  - vm_compute. reflexivity.
  - vm_compute. reflexivity.
Defined.

(* ===================================================================== *)
(** ** The frames [encode] produces                                       *)
(* ===================================================================== *)

Section Encoding.

Context `{RT : Runtime}.

Import RPCMessage.

(** C8.  The first frame is the packed map of exactly the five fields
    [type], [meth], [okey], [seq], [zip], taken from the message type,
    method, order key, sequence id and the [compress] argument.  It is
    the packer's output as it stands: the compressor is applied to the
    second frame only. *)
Theorem encode_header_frame
        (m : t) (s : AbstractSerializer) (compress : bool) (raw : bytes * bytes) :
  encode m s compress = Ok raw ->
  mpackb (PDict [ (PStr "type", PInt (int_of (msgtype m)));
                  (PStr "meth", method m);
                  (PStr "okey", order_key m);
                  (PStr "seq", seq_id m);
                  (PStr "zip", PBool compress) ]) = Ok (fst raw) /\
  exists packed, snd raw = (if compress then snappy_compress packed else packed).
Proof.
  intros H. apply encode_Ok in H.
  destruct H as (mb & payload & db & _ & Hh & _ & _ & _ & Hr).
  split; [exact Hh |]. exists db. exact Hr.
Qed.

(** C5.  [encode] calls the serializer on the body exactly for FUNCTION
    and RESULT messages and packs the body as it is otherwise; [decode]
    calls the deserializer on the ['body'] entry exactly for FUNCTION and
    RESULT and returns the entry as it is otherwise.  For the other four
    types the outcome does not depend on the callable passed. *)
Theorem body_codec_by_type :
  (forall m s compress raw,
      encode m s compress = Ok raw ->
      exists mb payload packed,
        match msgtype m with
        | FUNCTION | RESULT => s (body m) = Ok payload
        | STREAM | FAILURE | ERROR | CANCEL => payload = body m
        end /\
        mpackb (PDict [ (PStr "meta", PBytes mb); (PStr "body", payload) ])
          = Ok packed /\
        snd raw = body_frame compress packed) /\
  (forall m s s' compress,
      msgtype m <> FUNCTION -> msgtype m <> RESULT ->
      encode m s compress = encode m s' compress) /\
  (forall raw d m,
      decode raw d = Ok m ->
      exists header data raw_body,
        unpacked_frames raw = Ok (header, data) /\
        getitem data "body" = Ok raw_body /\
        match msgtype m with
        | FUNCTION | RESULT => d raw_body = Ok (body m)
        | STREAM | FAILURE | ERROR | CANCEL => body m = raw_body
        end) /\
  (forall raw d d' m,
      decode raw d = Ok m ->
      msgtype m <> FUNCTION -> msgtype m <> RESULT ->
      decode raw d' = Ok m).
Proof.
  repeat apply conj.
  - intros m s compress raw H. apply encode_Ok in H.
    destruct H as (mb & payload & db & _ & _ & Hp & Hd & _ & Hr).
    exists mb, payload, db. repeat apply conj; try assumption.
    unfold payload_of in Hp. destruct (msgtype m); exact Hp.
  - intros m s s' compress Hf Hr. unfold encode.
    destruct (msgtype m); try reflexivity; contradiction.
  - intros raw d m H. apply decode_Ok in H.
    destruct H as (header & data & ty & cls & meta & raw_body
                   & Hf & _ & _ & _ & _ & _ & Hb & Hd & _).
    exists header, data, raw_body. repeat apply conj; try assumption.
    unfold body_from in Hd. destruct (msgtype m); exact Hd.
  - intros raw d d' m H Hf Hr. apply decode_Ok in H. apply decode_Ok.
    destruct H as (header & data & ty & cls & meta & raw_body & H).
    exists header, data, ty, cls, meta, raw_body.
    unfold body_from in *. destruct (msgtype m); try exact H; contradiction.
Qed.

(** C3.  [encode] does not look at the pairing of type and variant:
    when it returns, the metadata bytes are the variant's own packed
    field list.  Whatever [decode] then returns for those frames carries
    no metadata or the variant the table gives for its type, so it is
    never the mismatched message. *)
Theorem mismatched_variant_never_decoded
        (m : t) (md : Metadata) (s : AbstractSerializer) (compress : bool) :
  metadata m = Some md ->
  metadata_types_at (msgtype m) <> Ok (class_of md) ->
  (forall raw,
      encode m s compress = Ok raw ->
      exists mb payload packed,
        mpackb (PList (field_values md)) = Ok mb /\
        payload_of s m payload /\
        mpackb (data_of mb payload) = Ok packed /\
        snd raw = body_frame compress packed) /\
  (forall raw d m',
      encode m s compress = Ok raw ->
      decode raw d = Ok m' ->
      variant_matches m' /\ m' <> m).
Proof.
  intros Hmd Hne. split.
  - intros raw H. apply encode_Ok in H.
    destruct H as (mb & payload & db & Hm & _ & Hp & Hd & _ & Hr).
    exists mb, payload, db. unfold metadata_buffer in Hm. rewrite Hmd in Hm.
    repeat apply conj; assumption.
  - intros raw d m' _ H.
    assert (V : variant_matches m').
    { apply decode_Ok in H.
      destruct H as (header & data & ty & cls & meta & raw_body
                     & _ & _ & _ & Hcls & _ & Hdec & _).
      unfold variant_matches. destruct (metadata m') as [md' |]; [| exact I].
      apply mixin_decode_class in Hdec. rewrite Hdec. exact Hcls. }
    split; [exact V |]. intros ->.
    unfold variant_matches in V. rewrite Hmd in V. contradiction.
Qed.

End Encoding.

(** The header of a zipped FUNCTION request. *)
Lemma encode_header_frame_witness :
  Msgpack.packb (PDict [ (PStr "type", PInt 0);
                         (PStr "meth", PStr "add");
                         (PStr "okey", PStr "");
                         (PStr "seq", PInt 1);
                         (PStr "zip", PBool true) ])
    = Ok (fst request_frames_zipped) /\
  exists packed, snd request_frames_zipped = Snappy.compress packed.
Proof.
  assert (E : RPCMessage.encode (RT := with_snappy) request_add marking_serializer true
              = Ok request_frames_zipped) by (vm_compute; reflexivity).
  exact (encode_header_frame (RT := with_snappy) _ _ _ _ E).
Defined.

(** The serializer runs on a FUNCTION request; a STREAM chunk decodes to
    the same message whatever deserializer is passed. *)
Lemma body_codec_by_type_witness :
  (exists mb payload packed,
      marking_serializer (RPCMessage.body request_add) = Ok payload /\
      Msgpack.packb (PDict [ (PStr "meta", PBytes mb); (PStr "body", payload) ])
        = Ok packed /\
      snd request_frames_zipped = Snappy.compress packed) /\
  RPCMessage.decode (RT := without_snappy) chunk_frames marking_deserializer = Ok chunk.
Proof.
  destruct (body_codec_by_type (RT := with_snappy)) as (T1 & _).
  destruct (body_codec_by_type (RT := without_snappy)) as (_ & _ & _ & T4).
  split.
  - apply (T1 request_add marking_serializer true request_frames_zipped).
    vm_compute. reflexivity.
  - apply (T4 chunk_frames noop marking_deserializer chunk).
    + vm_compute. reflexivity.
    + discriminate.
    + discriminate.
Defined.

(** A STREAM message carrying an [ErrorMetadata] of two fields comes back
    from its own frames as a STREAM message with a [StreamMetadata]. *)
Lemma mismatched_variant_never_decoded_witness :
  RPCMessage.decode (RT := without_snappy) mistagged_frames noop = Ok chunk /\
  variant_matches chunk /\ chunk <> mistagged.
Proof.
  split; [vm_compute; reflexivity |].
  refine (proj2 (mismatched_variant_never_decoded (RT := without_snappy)
                   mistagged (ErrorMetadata (PStr "log") (PInt 3)) noop false
                   eq_refl _)
                mistagged_frames noop chunk _ _).
  - vm_compute. discriminate.
  - vm_compute. reflexivity.
  - vm_compute. reflexivity.
Defined.

(* ===================================================================== *)
(** ** Compression                                                        *)
(* ===================================================================== *)

Section Compression.

Context `{RT : Runtime}.

Import RPCMessage.

(** C2.  Without the compressor, [encode] with [compress = true] never
    returns frames, and raises [ConfigurationError] once the metadata,
    the header and the data are packed; [decode] of a pair whose header
    has a true [zip] never returns a message, and raises
    [ConfigurationError] once the header's type is read.  Neither
    goes on with the uncompressed bytes. *)
Theorem compressor_unavailable :
  has_snappy = false ->
  (forall m s,
      (forall raw, encode m s true <> Ok raw) /\
      (forall mb hb payload packed,
          metadata_buffer m mb ->
          mpackb (header_of m true) = Ok hb ->
          payload_of s m payload ->
          mpackb (data_of mb payload) = Ok packed ->
          encode m s true
            = Raise (ConfigurationError "python-snappy is not installed"))) /\
  (forall raw d header zip,
      munpackb (fst raw) = Ok header ->
      getitem header "zip" = Ok zip ->
      truthy zip = true ->
      (forall m, decode raw d <> Ok m) /\
      (forall type_field ty,
          getitem header "type" = Ok type_field ->
          RPCMessageTypes_call type_field = Ok ty ->
          decode raw d
            = Raise (ConfigurationError "python-snappy is not installed"))).
Proof.
  intros Hs. split.
  - intros m s. split.
    + intros raw H. apply encode_Ok in H.
      destruct H as (_ & _ & _ & _ & _ & _ & _ & Hz & _).
      specialize (Hz eq_refl). congruence.
    + intros mb hb payload packed Hm Hh Hp Hd.
      unfold encode.
      assert (Em : match metadata m with
                   | Some md => TupleEncodingMixin.encode md
                   | None => Ok []
                   end = Ok mb)
        by (revert Hm; unfold metadata_buffer; destruct (metadata m);
            [trivial | intros ->; reflexivity]).
      rewrite Em. cbn [bind]. rewrite Hh. cbn [bind].
      assert (Ep : (if in_FUNCTION_RESULT (msgtype m) then s (body m)
                    else Ok (body m)) = Ok payload)
        by (revert Hp; unfold payload_of; destruct (in_FUNCTION_RESULT (msgtype m));
            [trivial | intros ->; reflexivity]).
      rewrite Ep. cbn [bind]. rewrite Hd. cbn [bind].
      rewrite Hs. reflexivity.
  - intros raw d header zip Hh Hz Ht. split.
    + intros m H. apply decode_Ok in H.
      destruct H as (header' & data & _ & _ & _ & _ & Hf & _).
      unfold unpacked_frames in Hf. rewrite Hh in Hf. cbn [bind] in Hf.
      rewrite Hz in Hf. cbn [bind] in Hf. rewrite Ht, Hs in Hf.
      discriminate.
    + intros type_field ty Hty Hc. unfold decode.
      rewrite Hh. cbn [bind]. rewrite Hty. cbn [bind]. rewrite Hc. cbn [bind].
      rewrite Hz. cbn [bind]. rewrite Ht, Hs. reflexivity.
Qed.

End Compression.

(** A FUNCTION request encoded with [compress = true], and the frames of a
    zipped request decoded, on the runtime without the compressor. *)
Lemma compressor_unavailable_witness :
  RPCMessage.encode (RT := without_snappy) request_add marking_serializer true
    = Raise (ConfigurationError "python-snappy is not installed") /\
  RPCMessage.decode (RT := without_snappy) request_frames_zipped marking_deserializer
    = Raise (ConfigurationError "python-snappy is not installed").
Proof.
  destruct (compressor_unavailable (RT := without_snappy) eq_refl) as (TE & TD).
  split.
  - eapply (proj2 (TE request_add marking_serializer)).
    + reflexivity.
    + vm_compute. reflexivity.
    + reflexivity.
    + vm_compute. reflexivity.
  - assert (Hh : munpackb (Runtime := without_snappy) (fst request_frames_zipped)
                 = Ok (RPCMessage.header_of request_add true))
      by (vm_compute; reflexivity).
    exact (proj2 (TD request_frames_zipped marking_deserializer
                     (RPCMessage.header_of request_add true) (PBool true)
                     Hh eq_refl eq_refl)
                 (PInt 0) FUNCTION eq_refl eq_refl).
Defined.

(* ===================================================================== *)
(** ** Round trip                                                         *)
(* ===================================================================== *)

Section RoundTrip.

Context `{RT : Runtime}.

Import RPCMessage.

Lemma getitem_header (m : t) (compress : bool) :
  getitem (header_of m compress) "type" = Ok (PInt (int_of (msgtype m))) /\
  getitem (header_of m compress) "meth" = Ok (method m) /\
  getitem (header_of m compress) "okey" = Ok (order_key m) /\
  getitem (header_of m compress) "seq" = Ok (seq_id m) /\
  getitem (header_of m compress) "zip" = Ok (PBool compress).
Proof. repeat split. Qed.

Lemma getitem_data (mb : bytes) (payload : pyval) :
  getitem (data_of mb payload) "meta" = Ok (PBytes mb) /\
  getitem (data_of mb payload) "body" = Ok payload.
Proof. split; reflexivity. Qed.

(** The decoding half: frames that unpack to the header and data of [m]
    decode to [m]. *)
Lemma decode_frames_of
      (m : t) (d : AbstractDeserializer) (compress : bool)
      (hb mb packed : bytes) (payload : pyval) :
  variant_matches m ->
  match metadata m with
  | Some md => packs_fields (field_values md) mb
  | None => mb = []
  end ->
  munpackb hb = Ok (header_of m compress) ->
  body_from d (msgtype m) payload (body m) ->
  munpackb packed = Ok (data_of mb payload) ->
  (compress = true ->
   has_snappy = true /\ snappy_decompress (snappy_compress packed) = Ok packed) ->
  decode (hb, body_frame compress packed) d = Ok m.
Proof.
  intros Hv Hm Hhu Hb Hdu Hz.
  destruct (metadata_types_at_total (msgtype m)) as [cls Hcls].
  destruct (getitem_header m compress) as (Gt & Gm & Go & Gs & Gz).
  destruct (getitem_data mb payload) as (Gmeta & Gbody).
  apply decode_Ok.
  exists (header_of m compress), (data_of mb payload),
    (PInt (int_of (msgtype m))), cls, (PBytes mb), payload.
  repeat apply conj; try assumption.
  - unfold unpacked_frames. cbn [fst snd]. rewrite Hhu. cbn [bind].
    rewrite Gz. cbn [bind truthy]. unfold body_frame.
    destruct compress.
    + destruct (Hz eq_refl) as [-> ->]. cbn [negb bind].
      rewrite Hdu. reflexivity.
    + cbn [bind]. rewrite Hdu. reflexivity.
  - apply RPCMessageTypes_call_int.
  - unfold variant_matches in Hv.
    destruct (metadata m) as [md |].
    + rewrite Hcls in Hv. injection Hv as ->.
      apply mixin_decode_fields, Hm.
    + subst mb. apply mixin_decode_empty.
Qed.

(** C1.  Let the metadata of [m] be absent or of the variant the table
    gives for its type, let the deserializer undo the serializer on the
    body, and let the unpacker read back what the packer wrote for the
    header, the field list and the data of [m].  Then [encode] returns
    frames and [decode] returns [m] from them: with [compress = false]
    always, with [compress = true] when the compressor is installed and
    its decompression undoes its compression. *)
Theorem encode_decode_roundtrip
        (m : t) (s : AbstractSerializer) (d : AbstractDeserializer) (compress : bool)
        (hb mb packed : bytes) (payload : pyval) :
  variant_matches m ->
  match metadata m with
  | Some md => packs_fields (field_values md) mb
  | None => mb = []
  end ->
  packs (header_of m compress) hb ->
  payload_of s m payload ->
  body_from d (msgtype m) payload (body m) ->
  packs (data_of mb payload) packed ->
  (compress = true ->
   has_snappy = true /\ snappy_decompress (snappy_compress packed) = Ok packed) ->
  exists raw, encode m s compress = Ok raw /\ decode raw d = Ok m.
Proof.
  intros Hv Hm [Hhp Hhu] Hp Hb [Hdp Hdu] Hz.
  exists (hb, body_frame compress packed). split.
  - apply encode_Ok. exists mb, payload, packed. simpl.
    repeat apply conj; try assumption; try reflexivity.
    + unfold metadata_buffer. destruct (metadata m) as [md |]; [| exact Hm].
      apply Hm.
    + intros Hc. apply (Hz Hc).
  - apply decode_frames_of with (mb := mb) (payload := payload); assumption.
Qed.

End RoundTrip.

(** A STREAM chunk with its two-field metadata, uncompressed and without
    the compressor; a FUNCTION request through a serializer that is not the
    identity, compressed. *)
Lemma encode_decode_roundtrip_witness :
  (exists raw,
      RPCMessage.encode (RT := without_snappy) chunk noop false = Ok raw /\
      RPCMessage.decode (RT := without_snappy) raw noop = Ok chunk) /\
  (exists raw,
      RPCMessage.encode (RT := with_snappy) request_add marking_serializer true = Ok raw /\
      RPCMessage.decode (RT := with_snappy) raw marking_deserializer = Ok request_add).
Proof.
  split.
  - apply (encode_decode_roundtrip (RT := without_snappy) chunk noop noop false
             (fst chunk_frames)
             [x92; xa3; x6c; x6f; x67; x03]
             (snd chunk_frames)
             (PBytes [x61; x62; x63])).
    + reflexivity.
    + split; [vm_compute; reflexivity |]. split; [discriminate |].
      exists (PTuple [PStr "log"; PInt 3]). split; vm_compute; reflexivity.
    + split; vm_compute; reflexivity.
    + reflexivity.
    + reflexivity.
    + split; vm_compute; reflexivity.
    + discriminate.
  - apply (encode_decode_roundtrip (RT := with_snappy) request_add
             marking_serializer marking_deserializer true
             (fst request_frames_zipped)
             [x90]
             [ x82; xa4; x6d; x65; x74; x61; xc4; x01; x90;
               xa4; x62; x6f; x64; x79; xc4; x04; x01; x92; x02; x03 ]
             (PBytes [x01; x92; x02; x03])).
    + reflexivity.
    + split; [vm_compute; reflexivity |]. split; [discriminate |].
      exists (PTuple []). split; vm_compute; reflexivity.
    + split; vm_compute; reflexivity.
    + reflexivity.
    + reflexivity.
    + split; vm_compute; reflexivity.
    + intros _. split; vm_compute; reflexivity.
Defined.

(* ===================================================================== *)
(** ** The reference runtime reads back what it writes                    *)
(* ===================================================================== *)

Section MsgpackFacts.

Import Msgpack.

Lemma Z_of_byte_of_Z (z : Z) : Z_of_byte (byte_of_Z z) = z mod 256.
Proof.
  unfold Z_of_byte, byte_of_Z.
  assert (R : 0 <= z mod 256 < 256) by (apply Z.mod_pos_bound; lia).
  destruct (Byte.of_N (Z.to_N (z mod 256))) as [b |] eqn:E.
  - apply Byte.to_of_N in E. rewrite E. apply Z2N.id. lia.
  - apply Byte.of_N_None_iff in E. lia.
Qed.

Lemma Z_of_byte_small (z : Z) : 0 <= z < 256 -> Z_of_byte (byte_of_Z z) = z.
Proof. intros R. rewrite Z_of_byte_of_Z. apply Z.mod_small, R. Qed.

Lemma big_endian_length (n : nat) (z : Z) : List.length (big_endian n z) = n.
Proof. induction n; simpl; congruence. Qed.

Lemma of_big_endian_big_endian (n : nat) (z acc : Z) :
  of_big_endian acc (big_endian n z) = acc * 256 ^ Z.of_nat n + z mod 256 ^ Z.of_nat n.
Proof.
  revert acc. induction n as [| n IH]; intros acc.
  - simpl. rewrite Z.mod_1_r. lia.
  - cbn [big_endian of_big_endian]. rewrite IH, Z_of_byte_of_Z.
    rewrite Z.shiftr_div_pow2 by lia.
    rewrite Z.pow_mul_r by lia. change (2 ^ 8) with 256.
    rewrite Nat2Z.inj_succ, Z.pow_succ_r by lia.
    set (p := 256 ^ Z.of_nat n).
    assert (Hp : 0 < p) by (apply Z.pow_pos_nonneg; lia).
    rewrite (Z.mul_comm 256 p).
    rewrite (Z.rem_mul_r z p 256) by lia. 
    ring.
Qed.

Lemma take_app (a rest : bytes) (n : Z) :
  Z.of_nat (List.length a) = n -> take n (a ++ rest) = Ok (a, rest).
Proof.
  intros <-. unfold take. rewrite length_app, Nat2Z.id.
  destruct (Z.ltb_spec (Z.of_nat (List.length a + List.length rest))
                       (Z.of_nat (List.length a))); [lia |].
  rewrite firstn_app, firstn_all, Nat.sub_diag, skipn_app, skipn_all, Nat.sub_diag.
  simpl. rewrite app_nil_r. reflexivity.
Qed.

Lemma take_uint_big_endian (k : nat) (n : Z) (rest : bytes) :
  0 <= n < 256 ^ Z.of_nat k ->
  take_uint (Z.of_nat k) (big_endian k n ++ rest) = Ok (n, rest).
Proof.
  intros R. unfold take_uint.
  rewrite take_app by (rewrite big_endian_length; reflexivity).
  cbn [bind fst snd]. rewrite of_big_endian_big_endian, Z.mod_small by exact R.
  reflexivity.
Qed.

Lemma take_int_big_endian (k : nat) (z : Z) (rest : bytes) :
  (0 < k)%nat ->
  - 2 ^ (8 * Z.of_nat k - 1) <= z < 2 ^ (8 * Z.of_nat k - 1) ->
  take_int (Z.of_nat k) (big_endian k z ++ rest) = Ok (z, rest).
Proof.
  intros Hk R. unfold take_int, take_uint.
  rewrite take_app by (rewrite big_endian_length; reflexivity).
  cbn [bind fst snd]. rewrite of_big_endian_big_endian, Z.mul_0_l, Z.add_0_l.
  replace (256 ^ Z.of_nat k) with (2 ^ (8 * Z.of_nat k))
    by (rewrite Z.pow_mul_r by lia; reflexivity).
  set (h := 2 ^ (8 * Z.of_nat k - 1)) in *.
  assert (Hh : 0 < h) by (apply Z.pow_pos_nonneg; lia).
  assert (E : 2 ^ (8 * Z.of_nat k) = 2 * h).
  { unfold h. rewrite <- Z.pow_succ_r by lia. f_equal. lia. }
  rewrite E. fold h.
  destruct (Z_lt_le_dec z 0) as [Hneg | Hpos].
  - assert (M : z mod (2 * h) = z + 2 * h).
    { symmetry. apply Z.mod_unique with (q := -1); lia. }
    rewrite M. destruct (Z.ltb_spec (z + 2 * h) h); [lia |].
    f_equal. f_equal. lia.
  - rewrite Z.mod_small by lia.
    destruct (Z.ltb_spec z h); [reflexivity | lia].
Qed.




(** Settle the comparisons on a tag whose range is known. *)
Ltac tag_chain :=
  repeat (match goal with
          | |- context [if ?a <? ?b then _ else _] =>
              first [ destruct (Z.ltb_spec a b); [lia |]
                    | destruct (Z.ltb_spec a b); [| lia] ]
          | |- context [if ?a =? ?b then _ else _] =>
              first [ destruct (Z.eqb_spec a b); [lia |]
                    | destruct (Z.eqb_spec a b); [| lia] ]
          | |- context [if ?a <=? ?b then _ else _] =>
              first [ destruct (Z.leb_spec a b); [lia |]
                    | destruct (Z.leb_spec a b); [| lia] ]
          end; cbv iota).

(** Turn a successful range test into its bounds. *)
Ltac bounds H :=
  apply andb_true_iff in H; destruct H as [?B ?B];
  rewrite ?Z.leb_le, ?Z.ltb_lt in *.

Lemma Ok_inj {A : Type} (x y : A) : Ok x = Ok y -> x = y.
Proof. intros E. injection E. trivial. Qed.

Section Atoms.

Variable unpack : bytes -> outcome (pyval * bytes).

Lemma unpack_fixint (z : Z) (rest : bytes) :
  -32 <= z < 128 ->
  unpack_tagged unpack (byte_of_Z z :: rest) = Ok (PInt z, rest).
Proof.
  intros R. unfold unpack_tagged. rewrite Z_of_byte_of_Z.
  destruct (Z_lt_le_dec z 0) as [Hneg | Hpos].
  - assert (M : z mod 256 = z + 256)
      by (symmetry; apply Z.mod_unique with (q := -1); lia).
    rewrite M. tag_chain. replace (z + 256 - 256) with z by lia. reflexivity.
  - rewrite Z.mod_small by lia. tag_chain. reflexivity.
Qed.

Lemma unpack_packed_int (z : Z) (b rest : bytes) :
  pack_int z = Ok b ->
  unpack_tagged unpack (b ++ rest) = Ok (PInt z, rest).
Proof.
  unfold pack_int.
  repeat match goal with
         | |- context [if ?c then _ else _] =>
             let C := fresh "C" in destruct c eqn:C; [bounds C |]
         end;
    intros E; try discriminate E; injection E as <-; cbn [app].
  - apply unpack_fixint. lia.
  - apply unpack_fixint. lia.
  - change (unpack_uint 1 (big_endian 1 z ++ rest) = Ok (PInt z, rest)).
    unfold unpack_uint. rewrite (take_uint_big_endian 1) by (simpl; lia). reflexivity.
  - change (unpack_int 1 (big_endian 1 z ++ rest) = Ok (PInt z, rest)).
    unfold unpack_int. rewrite (take_int_big_endian 1) by (simpl; lia). reflexivity.
  - change (unpack_uint 2 (big_endian 2 z ++ rest) = Ok (PInt z, rest)).
    unfold unpack_uint. rewrite (take_uint_big_endian 2) by (simpl; lia). reflexivity.
  - change (unpack_int 2 (big_endian 2 z ++ rest) = Ok (PInt z, rest)).
    unfold unpack_int. rewrite (take_int_big_endian 2) by (simpl; lia). reflexivity.
  - change (unpack_uint 4 (big_endian 4 z ++ rest) = Ok (PInt z, rest)).
    unfold unpack_uint. rewrite (take_uint_big_endian 4) by (simpl; lia). reflexivity.
  - change (unpack_int 4 (big_endian 4 z ++ rest) = Ok (PInt z, rest)).
    unfold unpack_int. rewrite (take_int_big_endian 4) by (simpl; lia). reflexivity.
  - change (unpack_uint 8 (big_endian 8 z ++ rest) = Ok (PInt z, rest)).
    unfold unpack_uint. rewrite (take_uint_big_endian 8) by (simpl; lia). reflexivity.
  - change (unpack_int 8 (big_endian 8 z ++ rest) = Ok (PInt z, rest)).
    unfold unpack_int. rewrite (take_int_big_endian 8) by (simpl; lia). reflexivity.
Qed.


Lemma unpack_packed_str (s : string) (b rest : bytes) :
  packb (PStr s) = Ok b ->
  unpack_tagged unpack (b ++ rest) = Ok (PStr s, rest).
Proof.
  cbn [packb]. set (raw := list_byte_of_string s).
  intros H. unbind H. injection H as <-.
  assert (Es : string_of_list_byte raw = s) by apply string_of_list_byte_of_string.
  assert (Hn : 0 <= Z.of_nat (List.length raw)) by lia.
  revert E. unfold pack_str_len.
  set (n := Z.of_nat (List.length raw)) in *.
  repeat match goal with
         | |- context [if ?c then _ else _] =>
             let C := fresh "C" in
             destruct c eqn:C; [rewrite ?Z.leb_le, ?Z.ltb_lt in C |]
         end;
    intros E; try discriminate E; apply Ok_inj in E; subst a;
    rewrite <- app_assoc; cbn [app].
  - unfold unpack_tagged. rewrite Z_of_byte_small by lia. tag_chain.
    unfold unpack_str. rewrite take_app by (fold n; lia).
    cbn [bind fst snd]. rewrite Es. reflexivity.
  - change (sized 1 unpack_str (big_endian 1 n ++ raw ++ rest) = Ok (PStr s, rest)).
    unfold sized. rewrite (take_uint_big_endian 1) by (simpl; lia).
    cbn [bind fst snd]. unfold unpack_str. rewrite take_app by reflexivity.
    cbn [bind fst snd]. rewrite Es. reflexivity.
  - change (sized 2 unpack_str (big_endian 2 n ++ raw ++ rest) = Ok (PStr s, rest)).
    unfold sized. rewrite (take_uint_big_endian 2) by (simpl; lia).
    cbn [bind fst snd]. unfold unpack_str. rewrite take_app by reflexivity.
    cbn [bind fst snd]. rewrite Es. reflexivity.
  - change (sized 4 unpack_str (big_endian 4 n ++ raw ++ rest) = Ok (PStr s, rest)).
    unfold sized. rewrite (take_uint_big_endian 4) by (simpl; lia).
    cbn [bind fst snd]. unfold unpack_str. rewrite take_app by reflexivity.
    cbn [bind fst snd]. rewrite Es. reflexivity.
Qed.

Lemma unpack_packed_bytes (raw b rest : bytes) :
  packb (PBytes raw) = Ok b ->
  unpack_tagged unpack (b ++ rest) = Ok (PBytes raw, rest).
Proof.
  cbn [packb]. intros H. unbind H. injection H as <-.
  assert (Hn : 0 <= Z.of_nat (List.length raw)) by lia.
  revert E. unfold pack_bin_len.
  set (n := Z.of_nat (List.length raw)) in *.
  repeat match goal with
         | |- context [if ?c then _ else _] =>
             let C := fresh "C" in
             destruct c eqn:C; [rewrite ?Z.leb_le, ?Z.ltb_lt in C |]
         end;
    intros E; try discriminate E; apply Ok_inj in E; subst a;
    rewrite <- app_assoc; cbn [app].
  - change (sized 1 unpack_bin (big_endian 1 n ++ raw ++ rest) = Ok (PBytes raw, rest)).
    unfold sized. rewrite (take_uint_big_endian 1) by (simpl; lia).
    cbn [bind fst snd]. unfold unpack_bin. rewrite take_app by reflexivity.
    reflexivity.
  - change (sized 2 unpack_bin (big_endian 2 n ++ raw ++ rest) = Ok (PBytes raw, rest)).
    unfold sized. rewrite (take_uint_big_endian 2) by (simpl; lia).
    cbn [bind fst snd]. unfold unpack_bin. rewrite take_app by reflexivity.
    reflexivity.
  - change (sized 4 unpack_bin (big_endian 4 n ++ raw ++ rest) = Ok (PBytes raw, rest)).
    unfold sized. rewrite (take_uint_big_endian 4) by (simpl; lia).
    cbn [bind fst snd]. unfold unpack_bin. rewrite take_app by reflexivity.
    reflexivity.
Qed.

(** Every scalar is read back from what the packer wrote for it. *)
Lemma unpack_packed_scalar (v : pyval) (b rest : bytes) :
  scalar v = true ->
  packb v = Ok b ->
  unpack_tagged unpack (b ++ rest) = Ok (v, rest).
Proof.
  destruct v as [| [|] | z | s | raw | l | l | kvs]; intros Hs; try discriminate Hs.
  - intros [= <-]. reflexivity.
  - intros [= <-]. reflexivity.
  - intros [= <-]. reflexivity.
  - apply unpack_packed_int.
  - apply unpack_packed_str.
  - apply unpack_packed_bytes.
Qed.

End Atoms.



Lemma pack_len_nonempty (fix_tag fix_limit tag16 tag32 n : Z) (b : bytes) :
  pack_len fix_tag fix_limit tag16 tag32 n = Ok b -> b <> [].
Proof.
  unfold pack_len.
  repeat match goal with
         | |- context [if ?c then _ else _] => destruct c
         end; intros E; try discriminate E; apply Ok_inj in E; subst b; discriminate.
Qed.

Lemma packb_nonempty (v : pyval) (b : bytes) : packb v = Ok b -> b <> [].
Proof.
  destruct v as [| [|] | z | s | raw | l | l | kvs]; cbn [packb].
  - intros E. apply Ok_inj in E. subst b. discriminate.
  - intros E. apply Ok_inj in E. subst b. discriminate.
  - intros E. apply Ok_inj in E. subst b. discriminate.
  - unfold pack_int.
    repeat match goal with
           | |- context [if ?c then _ else _] => destruct c
           end; intros E; try discriminate E; apply Ok_inj in E; subst b; discriminate.
  - intros H. unbind H. apply Ok_inj in H. subst b. revert E. unfold pack_str_len.
    repeat match goal with
           | |- context [if ?c then _ else _] => destruct c
           end; intros E; try discriminate E; apply Ok_inj in E; subst a; discriminate.
  - intros H. unbind H. apply Ok_inj in H. subst b. revert E. unfold pack_bin_len.
    repeat match goal with
           | |- context [if ?c then _ else _] => destruct c
           end; intros E; try discriminate E; apply Ok_inj in E; subst a; discriminate.
  - intros H. do 2 unbind H. apply Ok_inj in H. subst b.
    apply pack_len_nonempty in E. destruct a; [contradiction | discriminate].
  - intros H. do 2 unbind H. apply Ok_inj in H. subst b.
    apply pack_len_nonempty in E. destruct a; [contradiction | discriminate].
  - intros H. do 2 unbind H. apply Ok_inj in H. subst b.
    apply pack_len_nonempty in E. destruct a; [contradiction | discriminate].
Qed.

Lemma packb_length (v : pyval) (b : bytes) :
  packb v = Ok b -> (1 <= List.length b)%nat.
Proof.
  intros H. apply packb_nonempty in H. destruct b; [contradiction | simpl; lia].
Qed.

Lemma pack_items_length (l : list pyval) (b : bytes) :
  pack_items packb l = Ok b -> (List.length l <= List.length b)%nat.
Proof.
  revert b. induction l as [| x l IH]; intros b; cbn [pack_items].
  - intros _. simpl. lia.
  - intros H. do 2 unbind H. apply Ok_inj in H. subst b.
    apply packb_length in E. apply IH in E0.
    rewrite length_app. simpl. lia.
Qed.

Lemma pack_pairs_length (kvs : list (pyval * pyval)) (b : bytes) :
  pack_pairs packb kvs = Ok b -> (2 * List.length kvs <= List.length b)%nat.
Proof.
  revert b. induction kvs as [| [k x] kvs IH]; intros b; cbn [pack_pairs].
  - intros _. simpl. lia.
  - intros H. do 3 unbind H. apply Ok_inj in H. subst b.
    apply packb_length in E. apply packb_length in E0. apply IH in E1.
    rewrite !length_app. simpl. lia.
Qed.

Section Containers.

Variable unpack : bytes -> outcome (pyval * bytes).

Hypothesis unpack_scalar :
  forall v b rest,
    scalar v = true -> packb v = Ok b -> unpack (b ++ rest) = Ok (v, rest).

Lemma unpack_packed_items (l : list pyval) (b rest : bytes) :
  forallb scalar l = true ->
  pack_items packb l = Ok b ->
  unpack_items unpack (List.length l) (b ++ rest) = Ok (l, rest).
Proof.
  revert b. induction l as [| x l IH]; intros b Hs; cbn [pack_items].
  - intros E. apply Ok_inj in E. subst b. reflexivity.
  - cbn [forallb] in Hs. apply andb_true_iff in Hs. destruct Hs as [Hx Hl].
    intros H. do 2 unbind H. apply Ok_inj in H. subst b.
    cbn [List.length unpack_items]. rewrite <- app_assoc.
    rewrite (unpack_scalar x a (a0 ++ rest) Hx E). cbn [bind fst snd].
    rewrite (IH a0 Hl E0). reflexivity.
Qed.

Lemma unpack_packed_pairs (kvs acc : list (pyval * pyval)) (b rest : bytes) :
  forallb (fun kv => is_key (fst kv) && scalar (snd kv)) kvs = true ->
  pack_pairs packb kvs = Ok b ->
  unpack_pairs unpack (List.length kvs) acc (b ++ rest) = Ok (dict_of kvs acc, rest).
Proof.
  revert acc b. induction kvs as [| [k x] kvs IH]; intros acc b Hs; cbn [pack_pairs].
  - intros E. apply Ok_inj in E. subst b. reflexivity.
  - cbn [forallb fst snd] in Hs. apply andb_true_iff in Hs. destruct Hs as [Hkx Hl].
    apply andb_true_iff in Hkx. destruct Hkx as [Hk Hx].
    intros H. do 3 unbind H. apply Ok_inj in H. subst b.
    cbn [List.length unpack_pairs]. rewrite <- !app_assoc.
    assert (Sk : scalar k = true) by (destruct k; try discriminate Hk; reflexivity).
    rewrite (unpack_scalar k a (a0 ++ a1 ++ rest) Sk E). cbn [bind fst snd].
    assert (Ck : check_key k = Ok k) by (destruct k; try discriminate Hk; reflexivity).
    rewrite Ck. cbn [bind].
    rewrite (unpack_scalar x a0 (a1 ++ rest) Hx E0). cbn [bind fst snd].
    rewrite (IH (dict_set acc k x) a1 Hl E1). reflexivity.
Qed.

End Containers.

Lemma unpack_one_scalar (fuel : nat) (v : pyval) (b rest : bytes) :
  scalar v = true -> packb v = Ok b ->
  unpack_one (S fuel) (b ++ rest) = Ok (v, rest).
Proof. intros Hs Hp. cbn [unpack_one]. apply unpack_packed_scalar; assumption. Qed.

Lemma unpack_one_S (fuel : nat) (buf : bytes) :
  unpack_one (S fuel) buf = unpack_tagged (unpack_one fuel) buf.
Proof. reflexivity. Qed.

Lemma unpack_tagged_fixarray (unpack : bytes -> outcome (pyval * bytes))
      (n : Z) (rest : bytes) :
  0 <= n < 16 ->
  unpack_tagged unpack (byte_of_Z (144 + n) :: rest) = unpack_array unpack n rest.
Proof.
  intros R. unfold unpack_tagged. rewrite Z_of_byte_small by lia. tag_chain.
  f_equal. lia.
Qed.

Lemma unpack_tagged_fixmap (unpack : bytes -> outcome (pyval * bytes))
      (n : Z) (rest : bytes) :
  0 <= n < 16 ->
  unpack_tagged unpack (byte_of_Z (128 + n) :: rest) = unpack_map unpack n rest.
Proof.
  intros R. unfold unpack_tagged. rewrite Z_of_byte_small by lia. tag_chain.
  f_equal. lia.
Qed.

(** A short sequence of scalars comes back as the tuple of its items. *)
Lemma unpackb_packed_items (l : list pyval) (b : bytes) :
  forallb scalar l = true ->
  (List.length l < 16)%nat ->
  packb (PList l) = Ok b ->
  unpackb b = Ok (PTuple l).
Proof.
  intros Hs Hn H. pose proof (packb_length _ _ H) as Hb.
  cbn [packb] in H. do 2 unbind H. apply Ok_inj in H. subst b.
  unfold pack_len in E.
  destruct (Z.ltb_spec (Z.of_nat (List.length l)) 16); [| lia].
  apply Ok_inj in E. subst a. cbn [app] in *.
  pose proof (pack_items_length _ _ E0) as Hl.
  unfold unpackb. cbn [List.length].
  rewrite unpack_one_S, unpack_tagged_fixarray by lia.
  unfold unpack_array.
  destruct (Z.ltb_spec (Z.of_nat (List.length a0)) (Z.of_nat (List.length l))); [lia |].
  rewrite Nat2Z.id. rewrite <- (app_nil_r a0) at 2.
  rewrite (unpack_packed_items (unpack_one (S (List.length a0)))
             (unpack_one_scalar (List.length a0)) l a0 [] Hs E0).
  reflexivity.
Qed.

(** A short map with text or binary keys and scalar values comes back as
    the dict of its entries. *)
Lemma unpackb_packed_dict (kvs : list (pyval * pyval)) (b : bytes) :
  forallb (fun kv => is_key (fst kv) && scalar (snd kv)) kvs = true ->
  (List.length kvs < 16)%nat ->
  packb (PDict kvs) = Ok b ->
  unpackb b = Ok (PDict (dict_of kvs [])).
Proof.
  intros Hs Hn H. pose proof (packb_length _ _ H) as Hb.
  cbn [packb] in H. do 2 unbind H. apply Ok_inj in H. subst b.
  unfold pack_len in E.
  destruct (Z.ltb_spec (Z.of_nat (List.length kvs)) 16); [| lia].
  apply Ok_inj in E. subst a. cbn [app] in *.
  pose proof (pack_pairs_length _ _ E0) as Hl.
  unfold unpackb. cbn [List.length].
  rewrite unpack_one_S, unpack_tagged_fixmap by lia.
  unfold unpack_map.
  destruct (Z.ltb_spec (Z.of_nat (List.length a0)) (2 * Z.of_nat (List.length kvs)));
    [lia |].
  rewrite Nat2Z.id. rewrite <- (app_nil_r a0) at 2.
  rewrite (unpack_packed_pairs (unpack_one (S (List.length a0)))
             (unpack_one_scalar (List.length a0)) kvs [] a0 [] Hs E0).
  reflexivity.
Qed.

End MsgpackFacts.

Section SnappyFacts.

Import Msgpack.

Lemma read_varint_varint (fw : nat) :
  forall (n : Z) (fr : nat) (shift : Z) (rest : bytes),
    0 <= n < 128 ^ Z.of_nat (S fw) ->
    (List.length (Snappy.varint (S fw) n) <= fr)%nat ->
    0 <= shift ->
    Snappy.read_varint fr shift (Snappy.varint (S fw) n ++ rest)
      = Ok (n * 2 ^ shift, rest).
Proof.
  induction fw as [| fw IH]; intros n fr shift rest R Hfr Hs;
    cbn [Snappy.varint] in *;
    destruct (Z.ltb_spec n 128) as [Hlt | Hge];
    try (change (128 ^ Z.of_nat 1) with 128 in R; lia);
    (destruct fr as [| fr]; [simpl in Hfr; lia |]);
    cbn [app Snappy.read_varint].
  - rewrite Z_of_byte_small by lia.
    destruct (Z.ltb_spec n 128); [| lia].
    rewrite Z.shiftl_mul_pow2 by lia. reflexivity.
  - rewrite Z_of_byte_small by lia.
    destruct (Z.ltb_spec n 128); [| lia].
    rewrite Z.shiftl_mul_pow2 by lia. reflexivity.
  - assert (Hm : 0 <= n mod 128 < 128) by (apply Z.mod_pos_bound; lia).
    rewrite Z_of_byte_small by lia.
    destruct (Z.ltb_spec (128 + n mod 128) 128); [lia |].
    rewrite (IH (n / 128) fr (shift + 7) rest).
    + cbn [bind fst snd]. rewrite Z.shiftl_mul_pow2 by lia.
      rewrite Z.pow_add_r by lia.
      f_equal. f_equal.
      rewrite (Z.div_mod n 128) at 3 by lia.
      change (2 ^ 7) with 128. ring.
    + split; [apply Z.div_pos; lia |].
      apply Z.div_lt_upper_bound; [lia |].
      rewrite Nat2Z.inj_succ, Z.pow_succ_r in R by lia. lia.
    + cbn [List.length] in Hfr. lia.
    + lia.
Qed.

Lemma literals_covers (f : nat) (data : bytes) :
  (List.length data <= f)%nat ->
  (List.length data <= List.length (Snappy.literals f data))%nat.
Proof.
  revert data. induction f as [| f IH]; intros data Hf; cbn [Snappy.literals].
  - lia.
  - destruct data as [| x data]; [simpl; lia |].
    set (d := x :: data) in *.
    assert (Hd : (1 <= List.length d)%nat) by (simpl; lia).
    cbn [List.length]. rewrite length_app.
    pose proof (firstn_skipn 60 d) as FS.
    assert (Hlen : (List.length (firstn 60 d) + List.length (skipn 60 d)
                    = List.length d)%nat)
      by (rewrite <- length_app, FS; reflexivity).
    assert (Hfn : (1 <= List.length (firstn 60 d))%nat) by (simpl; lia).
    specialize (IH (skipn 60 d)). lia.
Qed.

Lemma read_elements_literals (f : nat) :
  forall (data : bytes) (fuel : nat),
    (List.length data <= f)%nat ->
    (List.length data <= fuel)%nat ->
    Snappy.read_elements fuel (Snappy.literals f data) = Ok data.
Proof.
  induction f as [| f IH]; intros data fuel Hf Hfuel.
  - destruct data; [| simpl in Hf; lia]. destruct fuel; reflexivity.
  - cbn [Snappy.literals].
    destruct data as [| x data]; [destruct fuel; reflexivity |].
    set (d := x :: data) in *.
    assert (Hd : (1 <= List.length d)%nat) by (simpl; lia).
    pose proof (firstn_skipn 60 d) as FS.
    assert (Hlen : (List.length (firstn 60 d) + List.length (skipn 60 d)
                    = List.length d)%nat)
      by (rewrite <- length_app, FS; reflexivity).
    assert (Hfn : (1 <= List.length (firstn 60 d) <= 60)%nat).
    { split; [simpl; lia | apply firstn_le_length]. }
    destruct fuel as [| fuel]; [lia |].
    cbn [Snappy.read_elements].
    set (k := Z.of_nat (List.length (firstn 60 d))) in *.
    rewrite Z_of_byte_small by lia.
    replace ((4 * (k - 1)) mod 4) with 0
      by (rewrite Z.mul_comm, Z.mod_mul; lia).
    replace (4 * (k - 1) / 4) with (k - 1)
      by (rewrite Z.mul_comm, Z.div_mul; lia).
    change (0 =? 0) with true. cbn [andb].
    destruct (Z.ltb_spec (k - 1) 60); [| lia].
    rewrite take_app by (fold k; lia).
    cbn [bind fst snd].
    rewrite (IH (skipn 60 d) fuel) by lia.
    cbn [bind]. rewrite FS. reflexivity.
Qed.

(** The store-only writer and the reader are inverse. *)
Lemma decompress_compress (data : bytes) :
  Snappy.decompress (Snappy.compress data) = Ok data.
Proof.
  unfold Snappy.decompress, Snappy.compress.
  set (n := Z.of_nat (List.length data)).
  assert (Hn : 0 <= n < 128 ^ Z.of_nat (S (List.length data))).
  { split; [lia |]. rewrite Nat2Z.inj_succ, Z.pow_succ_r by lia.
    pose proof (Z.pow_gt_lin_r 128 n ltac:(lia) ltac:(lia)). fold n. lia. }
  pose proof (literals_covers (List.length data) data (le_n _)) as Hc.
  rewrite read_varint_varint; [| exact Hn | rewrite length_app; lia | lia].
  cbn [bind fst snd].
  rewrite read_elements_literals; [| lia | rewrite length_app; lia].
  cbn [bind]. rewrite Z.pow_0_r, Z.mul_1_r.
  fold n. rewrite Z.eqb_refl. reflexivity.
Qed.

End SnappyFacts.

Section Reference.

Import RPCMessage.

Variable installed : bool.

Let RT : Runtime := reference installed.

Lemma reference_mpackb (v : pyval) : mpackb (Runtime := RT) v = Msgpack.packb v.
Proof. unfold RT, reference. destruct installed; reflexivity. Qed.

Lemma reference_munpackb (b : bytes) : munpackb (Runtime := RT) b = Msgpack.unpackb b.
Proof. unfold RT, reference. destruct installed; reflexivity. Qed.

Lemma reference_snappy (b : bytes) :
  has_snappy (Runtime := RT) = true ->
  snappy_decompress (Runtime := RT) (snappy_compress (Runtime := RT) b) = Ok b.
Proof.
  unfold RT, reference. destruct installed; simpl; [| discriminate].
  intros _. apply decompress_compress.
Qed.

(** On the reference runtime the round trip needs no assumption about the
    packer: whenever a message with scalar fields is encoded, its frames
    decode to it. *)
Corollary reference_roundtrip
        (m : t) (s : AbstractSerializer) (d : AbstractDeserializer) (compress : bool)
        (raw : bytes * bytes) (payload : pyval) :
  variant_matches m ->
  scalar_fields m = true ->
  payload_of s m payload ->
  scalar payload = true ->
  body_from d (msgtype m) payload (body m) ->
  encode (RT := RT) m s compress = Ok raw ->
  decode (RT := RT) raw d = Ok m.
Proof.
  intros Hv Hf Hp Hs Hb He.
  apply encode_Ok in He.
  destruct He as (mb & payload' & packed & Hm & Hh & Hp' & Hd & Hz & Hr).
  assert (payload' = payload).
  { unfold payload_of in Hp, Hp'. destruct (in_FUNCTION_RESULT (msgtype m)); congruence. }
  subst payload'.
  destruct raw as [hb zb]. cbn [fst snd] in Hh, Hr. subst zb.
  unfold scalar_fields in Hf.
  apply andb_true_iff in Hf. destruct Hf as [Hf Hmd].
  apply andb_true_iff in Hf. destruct Hf as [Hf Hseq].
  apply andb_true_iff in Hf. destruct Hf as [Hmeth Hokey].
  rewrite reference_mpackb in Hh, Hd.
  apply decode_frames_of with (mb := mb) (payload := payload); try assumption.
  - unfold metadata_buffer in Hm. destruct (metadata m) as [md |]; [| exact Hm].
    unfold TupleEncodingMixin.encode in Hm. 
    split; [exact Hm |]. rewrite reference_mpackb in Hm.
    split; [eapply packb_nonempty; exact Hm |].
    exists (PTuple (field_values md)). rewrite reference_munpackb. split; [| reflexivity].
    apply unpackb_packed_items; [exact Hmd | destruct md; simpl; lia | exact Hm].
  - rewrite reference_munpackb.
    rewrite (unpackb_packed_dict _ hb) with (3 := Hh).
    + reflexivity.
    + cbn [forallb fst snd is_key scalar header_of andb].
      rewrite Hmeth, Hokey, Hseq. reflexivity.
    + simpl. lia.
  - rewrite reference_munpackb.
    rewrite (unpackb_packed_dict _ packed) with (3 := Hd).
    + reflexivity.
    + cbn [forallb fst snd is_key scalar data_of andb].
      rewrite Hs. reflexivity.
    + simpl. lia.
  - intros Hc. split; [exact (Hz Hc) |]. apply reference_snappy, Hz, Hc.
Qed.

End Reference.

(** The stream chunk and the zipped request, through the corollary. *)
Example reference_roundtrip_samples :
  RPCMessage.decode (RT := reference false) chunk_frames noop = Ok chunk /\
  RPCMessage.decode (RT := reference true) request_frames_zipped marking_deserializer
    = Ok request_add.
Proof.
  split.
  - apply (reference_roundtrip false chunk noop noop false chunk_frames
             (PBytes [x61; x62; x63])); reflexivity.
  - apply (reference_roundtrip true request_add marking_serializer
             marking_deserializer true request_frames_zipped
             (PBytes [x01; x92; x02; x03])); reflexivity.
Qed.

(* ===================================================================== *)
(** ** The enumeration, the table and the tuple encoding                  *)
(* ===================================================================== *)

(** X1.  [RPCMessageTypes(value)] returns a member exactly when the value
    equals that member's integer, so each member is recovered from its own
    integer, [True] and [False] are taken for STREAM and FUNCTION, and
    every other value is a [ValueError]. *)
Theorem RPCMessageTypes_call_iff :
  (forall v t, RPCMessageTypes_call v = Ok t <-> py_eq_int v (int_of t) = true) /\
  (forall v, (exists t, RPCMessageTypes_call v = Ok t)
             \/ RPCMessageTypes_call v = Raise ValueError) /\
  RPCMessageTypes_call (PBool true) = Ok STREAM /\
  RPCMessageTypes_call (PBool false) = Ok FUNCTION.
Proof.
  repeat apply conj; try reflexivity.
  - intros v t. split; [apply RPCMessageTypes_call_Ok |].
    destruct v as [| b | z | s | raw | l | l | kvs]; simpl; try discriminate.
    + destruct b, t; simpl; intros H; try discriminate H; reflexivity.
    + intros H. apply Z.eqb_eq in H. subst z. destruct t; reflexivity.
  - intros v. unfold RPCMessageTypes_call.
    destruct (find _ members); [left; eauto | right; reflexivity].
Qed.

(** X2.  The table has an entry for each of the six message types, so
    indexing it with a member never raises [IndexError]; the class found
    takes two constructor arguments for STREAM, FAILURE and ERROR and none
    for FUNCTION, RESULT and CANCEL. *)
Theorem metadata_types_covers_members :
  List.length metadata_types = List.length members /\
  forall t,
    exists cls,
      metadata_types_at t = Ok cls /\
      arity cls = match t with
                  | STREAM | FAILURE | ERROR => 2%nat
                  | FUNCTION | RESULT | CANCEL => 0%nat
                  end.
Proof.
  split; [reflexivity |].
  intros t. destruct t; eexists; split; reflexivity.
Qed.

Section TupleEncoding.

Context `{RT : Runtime}.

Lemma construct_arity (cls : MetadataClass) (args : list pyval) :
  List.length args <> arity cls -> construct cls args = Raise TypeError.
Proof.
  destruct cls; destruct args as [| x [| y [| z rest]]]; simpl; intros H;
    try reflexivity; contradiction H; reflexivity.
Qed.

Lemma construct_Ok_arity (cls : MetadataClass) (args : list pyval) :
  List.length args = arity cls ->
  exists md, construct cls args = Ok md /\ class_of md = cls /\ field_values md = args.
Proof.
  destruct cls; destruct args as [| x [| y [| z rest]]]; simpl; intros H;
    try discriminate H; eexists; repeat split.
Qed.

(** X3.  [TupleEncodingMixin.decode] returns an instance exactly when the
    buffer is a non-empty bytes object that unpacks to an iterable whose
    items are, in order, the fields of that instance of the class asked
    for; it returns [None] exactly when the buffer is falsy. *)
Theorem mixin_decode_iff (cls : MetadataClass) (buffer : pyval) :
  (forall md,
      TupleEncodingMixin.decode cls buffer = Ok (Some md) <->
      exists b u,
        buffer = PBytes b /\ b <> [] /\ munpackb b = Ok u /\
        star_args u = Ok (field_values md) /\ class_of md = cls) /\
  (TupleEncodingMixin.decode cls buffer = Ok None <-> truthy buffer = false).
Proof.
  unfold TupleEncodingMixin.decode. split.
  - intros md. split.
    + destruct (truthy buffer) eqn:T; simpl; [| discriminate].
      intros H. do 3 unbind H. apply Ok_inj in H. injection H as ->.
      apply construct_class in E1. destruct E1 as [Hc Hf].
      destruct buffer as [| b | z | s | raw | l | l | kvs]; try discriminate E.
      exists raw, a. repeat split; try assumption.
      * intros ->. discriminate T.
      * rewrite Hf. exact E0.
    + intros (b & u & -> & Hne & Hu & Hs & <-).
      destruct b as [| x b]; [contradiction Hne; reflexivity |]. simpl.
      rewrite Hu. cbn [bind]. rewrite Hs. cbn [bind].
      rewrite construct_fields. reflexivity.
  - destruct (truthy buffer); simpl; split; intros H;
      try reflexivity; try discriminate H.
    do 3 unbind H. discriminate H.
Qed.

(** X4.  A buffer that unpacks to a number of items other than the number
    of fields of the class makes [TupleEncodingMixin.decode] raise
    [TypeError]: no field is dropped and none is defaulted. *)
Theorem mixin_decode_arity
        (cls : MetadataClass) (b : bytes) (u : pyval) (args : list pyval) :
  b <> [] ->
  munpackb b = Ok u ->
  star_args u = Ok args ->
  List.length args <> arity cls ->
  TupleEncodingMixin.decode cls (PBytes b) = Raise TypeError.
Proof.
  intros Hne Hu Hs Ha. unfold TupleEncodingMixin.decode.
  destruct b as [| x b]; [contradiction Hne; reflexivity |]. simpl.
  rewrite Hu. cbn [bind]. rewrite Hs. cbn [bind].
  rewrite construct_arity by exact Ha. reflexivity.
Qed.

(** X5.  What [TupleEncodingMixin.encode] writes for an instance,
    [TupleEncodingMixin.decode] of the instance's class reads back as that
    instance, whenever the packer writes a non-empty buffer for the field
    list and the unpacker reads the items back. *)
Theorem mixin_encode_decode (md : Metadata) (b : bytes) :
  packs_fields (field_values md) b ->
  TupleEncodingMixin.encode md = Ok b /\
  TupleEncodingMixin.decode (class_of md) (PBytes b) = Ok (Some md).
Proof.
  intros Hp. split.
  - unfold TupleEncodingMixin.encode. apply Hp.
  - apply mixin_decode_fields, Hp.
Qed.

(** X6.  The buffer carries the field values by position and nothing of
    the class: decoded for any class with the same number of fields, it
    gives an instance of that class holding the same values in the same
    order. *)
Theorem mixin_decode_is_positional (md : Metadata) (b : bytes) (cls : MetadataClass) :
  packs_fields (field_values md) b ->
  arity cls = List.length (field_values md) ->
  exists md',
    TupleEncodingMixin.decode cls (PBytes b) = Ok (Some md') /\
    class_of md' = cls /\ field_values md' = field_values md.
Proof.
  intros (_ & Hne & u & Hu & Hs) Ha.
  destruct (construct_Ok_arity cls (field_values md) (eq_sym Ha)) as (md' & Hc & Hcls & Hf).
  exists md'. repeat split; try assumption.
  unfold TupleEncodingMixin.decode.
  destruct b as [| x b]; [contradiction Hne; reflexivity |]. simpl.
  rewrite Hu. cbn [bind]. rewrite Hs. cbn [bind]. rewrite Hc. reflexivity.
Qed.

End TupleEncoding.

(** Two packed items decoded for a class without fields. *)
Lemma mixin_decode_arity_witness :
  TupleEncodingMixin.decode (RT := without_snappy) cls_FunctionMetadata
    (PBytes [x92; xa1; x61; xa1; x62])
  = Raise TypeError.
Proof.
  apply (mixin_decode_arity (RT := without_snappy) cls_FunctionMetadata
           [x92; xa1; x61; xa1; x62] (PTuple [PStr "a"; PStr "b"])
           [PStr "a"; PStr "b"]).
  - discriminate.
  - vm_compute. reflexivity.
  - reflexivity.
  - simpl. discriminate.
Defined.

(** The metadata of a stream chunk. *)
Lemma mixin_encode_decode_witness :
  TupleEncodingMixin.encode (RT := without_snappy) (StreamMetadata (PStr "log") (PInt 3))
    = Ok [x92; xa3; x6c; x6f; x67; x03] /\
  TupleEncodingMixin.decode (RT := without_snappy) cls_StreamMetadata
    (PBytes [x92; xa3; x6c; x6f; x67; x03])
    = Ok (Some (StreamMetadata (PStr "log") (PInt 3))).
Proof.
  apply (mixin_encode_decode (RT := without_snappy)
           (StreamMetadata (PStr "log") (PInt 3)) [x92; xa3; x6c; x6f; x67; x03]).
  split; [vm_compute; reflexivity |]. split; [discriminate |].
  exists (PTuple [PStr "log"; PInt 3]). split; vm_compute; reflexivity.
Defined.

(** The metadata of a stream chunk read as the metadata of an error. *)
Lemma mixin_decode_is_positional_witness :
  exists md',
    TupleEncodingMixin.decode (RT := without_snappy) cls_ErrorMetadata
      (PBytes [x92; xa3; x6c; x6f; x67; x03]) = Ok (Some md') /\
    class_of md' = cls_ErrorMetadata /\
    field_values md' = [PStr "log"; PInt 3].
Proof.
  apply (mixin_decode_is_positional (RT := without_snappy)
           (StreamMetadata (PStr "log") (PInt 3)) [x92; xa3; x6c; x6f; x67; x03]
           cls_ErrorMetadata).
  - split; [vm_compute; reflexivity |]. split; [discriminate |].
    exists (PTuple [PStr "log"; PInt 3]). split; vm_compute; reflexivity.
  - reflexivity.
Defined.

(* ===================================================================== *)
(** ** Headers and data maps as [decode] reads them                       *)
(* ===================================================================== *)

Lemma getitem_Ok (v : pyval) (k : string) (x : pyval) :
  getitem v k = Ok x <-> exists kvs, v = PDict kvs /\ dict_get kvs k = Some x.
Proof.
  split.
  - destruct v as [| b | z | s | raw | l | l | kvs]; simpl; try discriminate.
    destruct (dict_get kvs k) as [y |] eqn:E; [| discriminate].
    intros H. apply Ok_inj in H. subst y. eauto.
  - intros (kvs & -> & H). simpl. rewrite H. reflexivity.
Qed.

Section HeaderReading.

Context `{RT : Runtime}.

Import RPCMessage.

(** X7.  A header that does not unpack to a mapping makes [decode] raise
    [TypeError]; a mapping without ['type'] makes it raise
    [KeyError('type')], and one with a valid type but without ['zip']
    [KeyError('zip')].  The second frame is not looked at in any of these
    cases. *)
Theorem decode_malformed_header
        (raw : bytes * bytes) (d : AbstractDeserializer) (header : pyval) :
  munpackb (fst raw) = Ok header ->
  ((forall kvs, header <> PDict kvs) -> decode raw d = Raise TypeError) /\
  (forall kvs,
      header = PDict kvs -> dict_get kvs "type" = None ->
      decode raw d = Raise (KeyError "type")) /\
  (forall kvs type_field ty,
      header = PDict kvs -> dict_get kvs "type" = Some type_field ->
      RPCMessageTypes_call type_field = Ok ty ->
      dict_get kvs "zip" = None ->
      decode raw d = Raise (KeyError "zip")).
Proof.
  intros Hh. unfold decode. rewrite Hh. cbn [bind]. repeat apply conj.
  - intros Hn. destruct header; try reflexivity. contradiction (Hn kvs). reflexivity.
  - intros kvs -> Hk. simpl. rewrite Hk. reflexivity.
  - intros kvs type_field ty -> Ht Hc Hz. simpl. rewrite Ht. cbn [bind].
    rewrite Hc. cbn [bind]. rewrite Hz. reflexivity.
Qed.

(** X8.  [decode] fills in nothing: a message it returns comes from a
    header that is a mapping holding ['type'], ['zip'], ['meth'], ['okey']
    and ['seq'] and from a data mapping holding ['meta'] and ['body'], and
    its method, order key and sequence id are the header's values as they
    were unpacked. *)
Theorem decoded_fields_come_from_header
        (raw : bytes * bytes) (d : AbstractDeserializer) (m : t) :
  decode raw d = Ok m ->
  exists hkvs dkvs type_field zip meta raw_body,
    unpacked_frames raw = Ok (PDict hkvs, PDict dkvs) /\
    dict_get hkvs "type" = Some type_field /\
    py_eq_int type_field (int_of (msgtype m)) = true /\
    dict_get hkvs "zip" = Some zip /\
    dict_get hkvs "meth" = Some (method m) /\
    dict_get hkvs "okey" = Some (order_key m) /\
    dict_get hkvs "seq" = Some (seq_id m) /\
    dict_get dkvs "meta" = Some meta /\
    dict_get dkvs "body" = Some raw_body.
Proof.
  intros H. apply decode_Ok in H.
  destruct H as (header & data & ty & cls & meta & raw_body
                 & Hf & Ht & Hc & _ & Hm & _ & Hb & _ & Hme & Hok & Hsq).
  apply getitem_Ok in Ht. destruct Ht as (hkvs & -> & Ht).
  apply getitem_Ok in Hm. destruct Hm as (dkvs & -> & Hm).
  assert (Hz : exists zip, dict_get hkvs "zip" = Some zip).
  { unfold unpacked_frames in Hf. do 2 unbind Hf.
    destruct (munpackb (fst raw)) as [h |] eqn:Eh; [| discriminate E].
    apply Ok_inj in E. subst a. apply getitem_Ok in E0.
    destruct E0 as (kvs & -> & Hz). do 2 unbind Hf. apply Ok_inj in Hf.
    injection Hf as <- _. eauto. }
  destruct Hz as [zip Hz].
  exists hkvs, dkvs, ty, zip, meta, raw_body.
  apply getitem_Ok in Hb. destruct Hb as (dkvs' & [= <-] & Hb).
  apply getitem_Ok in Hme. destruct Hme as (k1 & [= <-] & Hme).
  apply getitem_Ok in Hok. destruct Hok as (k2 & [= <-] & Hok).
  apply getitem_Ok in Hsq. destruct Hsq as (k3 & [= <-] & Hsq).
  repeat apply conj; try assumption.
  apply RPCMessageTypes_call_Ok, Hc.
Qed.

(** X9.  [decode] reads five entries of the header and two of the data map
    and nothing else: two frame pairs that both unpack (which is where
    ['zip'] is used) and whose maps agree on ['type'], ['meth'], ['okey'],
    ['seq'], ['meta'] and ['body'] decode to the same outcome, whatever
    other entries they hold. *)
Theorem decode_reads_seven_entries
        (raw raw' : bytes * bytes) (d : AbstractDeserializer)
        (header data header' data' : pyval) :
  unpacked_frames raw = Ok (header, data) ->
  unpacked_frames raw' = Ok (header', data') ->
  getitem header "type" = getitem header' "type" ->
  getitem header "meth" = getitem header' "meth" ->
  getitem header "okey" = getitem header' "okey" ->
  getitem header "seq" = getitem header' "seq" ->
  getitem data "meta" = getitem data' "meta" ->
  getitem data "body" = getitem data' "body" ->
  decode raw d = decode raw' d.
Proof.
  intros Hf Hf' Ht Hme Hok Hsq Hm Hb.
  unfold unpacked_frames in Hf, Hf'.
  do 4 unbind Hf. apply Ok_inj in Hf. injection Hf as <- <-.
  do 4 unbind Hf'. apply Ok_inj in Hf'. injection Hf' as <- <-.
  unfold decode.
  rewrite E, E3. cbn [bind]. rewrite Ht.
  destruct (getitem a3 "type") as [ty | e]; cbn [bind]; [| reflexivity].
  destruct (RPCMessageTypes_call ty) as [msgtype | e]; cbn [bind]; [| reflexivity].
  rewrite E0, E4. cbn [bind]. rewrite E1, E5. cbn [bind].
  rewrite E2, E6. cbn [bind]. rewrite Hm, Hb, Hme, Hok, Hsq. reflexivity.
Qed.

End HeaderReading.

(** A header that is an array, a header that is an empty map, and a
    header that holds a type and nothing else. *)
Lemma decode_malformed_header_witness :
  RPCMessage.decode (RT := without_snappy) ([x90], bare_data) noop = Raise TypeError /\
  RPCMessage.decode (RT := without_snappy) ([x80], bare_data) noop
    = Raise (KeyError "type") /\
  RPCMessage.decode (RT := without_snappy)
    ([x81; xa4; x74; x79; x70; x65; x02], bare_data) noop
    = Raise (KeyError "zip").
Proof.
  repeat apply conj.
  - apply (proj1 (decode_malformed_header (RT := without_snappy)
                    ([x90], bare_data) noop (PTuple []) eq_refl)).
    intros kvs. discriminate.
  - apply (proj1 (proj2 (decode_malformed_header (RT := without_snappy)
                           ([x80], bare_data) noop (PDict []) eq_refl))
                 [] eq_refl eq_refl).
  - apply (proj2 (proj2 (decode_malformed_header (RT := without_snappy)
                           ([x81; xa4; x74; x79; x70; x65; x02], bare_data) noop
                           (PDict [(PStr "type", PInt 2)]) eq_refl))
                 [(PStr "type", PInt 2)] (PInt 2) RESULT eq_refl eq_refl eq_refl eq_refl).
Defined.

(** The frames of a stream chunk. *)
Lemma decoded_fields_come_from_header_witness :
  exists hkvs dkvs type_field zip meta raw_body,
    unpacked_frames (RT := without_snappy) chunk_frames = Ok (PDict hkvs, PDict dkvs) /\
    dict_get hkvs "type" = Some type_field /\
    py_eq_int type_field (int_of (RPCMessage.msgtype chunk)) = true /\
    dict_get hkvs "zip" = Some zip /\
    dict_get hkvs "meth" = Some (RPCMessage.method chunk) /\
    dict_get hkvs "okey" = Some (RPCMessage.order_key chunk) /\
    dict_get hkvs "seq" = Some (RPCMessage.seq_id chunk) /\
    dict_get dkvs "meta" = Some meta /\
    dict_get dkvs "body" = Some raw_body.
Proof.
  apply (decoded_fields_come_from_header (RT := without_snappy) chunk_frames noop chunk).
  vm_compute. reflexivity.
Defined.

(** The frames of a stream chunk, and the same with an entry more in each
    map. *)
Lemma decode_reads_seven_entries_witness :
  RPCMessage.decode (RT := without_snappy) chunk_frames noop
  = RPCMessage.decode (RT := without_snappy) chunk_frames_padded noop.
Proof.
  apply (decode_reads_seven_entries (RT := without_snappy)
           chunk_frames chunk_frames_padded noop
           (PDict [ (PStr "type", PInt 1); (PStr "meth", PStr "feed");
                    (PStr "okey", PStr "k"); (PStr "seq", PInt 7);
                    (PStr "zip", PBool false) ])
           (PDict [ (PStr "meta", PBytes [x92; xa3; x6c; x6f; x67; x03]);
                    (PStr "body", PBytes [x61; x62; x63]) ])
           (PDict [ (PStr "ver", PInt 2);
                    (PStr "type", PInt 1); (PStr "meth", PStr "feed");
                    (PStr "okey", PStr "k"); (PStr "seq", PInt 7);
                    (PStr "zip", PBool false) ])
           (PDict [ (PStr "meta", PBytes [x92; xa3; x6c; x6f; x67; x03]);
                    (PStr "pad", PNone);
                    (PStr "body", PBytes [x61; x62; x63]) ]));
    vm_compute; reflexivity.
Defined.

(* ===================================================================== *)
(** ** With and without the compressor                                    *)
(* ===================================================================== *)

Lemma mixin_decode_same_unpacker (RT1 RT2 : Runtime) (cls : MetadataClass) (meta : pyval) :
  (forall b, munpackb (Runtime := RT1) b = munpackb (Runtime := RT2) b) ->
  TupleEncodingMixin.decode (RT := RT1) cls meta
  = TupleEncodingMixin.decode (RT := RT2) cls meta.
Proof.
  intros Hu. unfold TupleEncodingMixin.decode, munpackb_obj.
  destruct (negb (truthy meta)); [reflexivity |].
  destruct meta; try reflexivity. rewrite Hu. reflexivity.
Qed.

(** X10.  Nothing of the compressor is used on the uncompressed path: two
    runtimes with the same packer and unpacker, whether or not either has
    the compressor, give the same outcome for [encode] with
    [compress = false], and the same outcome for [decode] of a pair whose
    header has a falsy [zip]. *)
Theorem uncompressed_path_ignores_snappy (RT1 RT2 : Runtime) :
  (forall v, mpackb (Runtime := RT1) v = mpackb (Runtime := RT2) v) ->
  (forall b, munpackb (Runtime := RT1) b = munpackb (Runtime := RT2) b) ->
  (forall m s,
      RPCMessage.encode (RT := RT1) m s false = RPCMessage.encode (RT := RT2) m s false) /\
  (forall raw d header zip,
      munpackb (Runtime := RT1) (fst raw) = Ok header ->
      getitem header "zip" = Ok zip ->
      truthy zip = false ->
      RPCMessage.decode (RT := RT1) raw d = RPCMessage.decode (RT := RT2) raw d).
Proof.
  intros Hp Hu. split.
  - intros m s. unfold RPCMessage.encode, TupleEncodingMixin.encode.
    destruct (RPCMessage.metadata m) as [md |].
    + rewrite Hp. destruct (mpackb (PList (field_values md))) as [mb | e];
        cbn [bind]; [| reflexivity].
      rewrite Hp. destruct (mpackb (RPCMessage.header_of m false)) as [hb | e];
        cbn [bind]; [| reflexivity].
      destruct (if in_FUNCTION_RESULT (RPCMessage.msgtype m)
                then s (RPCMessage.body m) else Ok (RPCMessage.body m))
        as [payload | e]; cbn [bind]; [| reflexivity].
      rewrite Hp. reflexivity.
    + cbn [bind]. rewrite Hp.
      destruct (mpackb (RPCMessage.header_of m false)) as [hb | e];
        cbn [bind]; [| reflexivity].
      destruct (if in_FUNCTION_RESULT (RPCMessage.msgtype m)
                then s (RPCMessage.body m) else Ok (RPCMessage.body m))
        as [payload | e]; cbn [bind]; [| reflexivity].
      rewrite Hp. reflexivity.
  - intros raw d header zip Hh Hz Ht. unfold RPCMessage.decode.
    rewrite <- Hu, Hh. cbn [bind].
    destruct (getitem header "type") as [ty | e]; cbn [bind]; [| reflexivity].
    destruct (RPCMessageTypes_call ty) as [msgtype | e]; cbn [bind]; [| reflexivity].
    rewrite Hz. cbn [bind]. rewrite Ht. cbn [bind].
    rewrite <- Hu. destruct (munpackb (snd raw)) as [data | e]; cbn [bind]; [| reflexivity].
    destruct (metadata_types_at msgtype) as [cls | e]; cbn [bind]; [| reflexivity].
    destruct (getitem data "meta") as [meta | e]; cbn [bind]; [| reflexivity].
    rewrite (mixin_decode_same_unpacker RT1 RT2 cls meta Hu). reflexivity.
Qed.

(** The frames of a stream chunk, on the runtime with the compressor and on
    the one without. *)
Lemma uncompressed_path_ignores_snappy_witness :
  RPCMessage.encode (RT := with_snappy) chunk noop false
    = RPCMessage.encode (RT := without_snappy) chunk noop false /\
  RPCMessage.decode (RT := with_snappy) chunk_frames noop
    = RPCMessage.decode (RT := without_snappy) chunk_frames noop.
Proof.
  destruct (uncompressed_path_ignores_snappy with_snappy without_snappy
              (fun v => eq_refl) (fun b => eq_refl)) as [TE TD].
  split.
  - apply TE.
  - apply (TD chunk_frames noop
              (PDict [ (PStr "type", PInt 1); (PStr "meth", PStr "feed");
                       (PStr "okey", PStr "k"); (PStr "seq", PInt 7);
                       (PStr "zip", PBool false) ])
              (PBool false)).
    + vm_compute. reflexivity.
    + reflexivity.
    + reflexivity.
Defined.

Section CompressedPath.

Context `{RT : Runtime}.

Import RPCMessage.

(** X11.  Compression changes the second frame only by wrapping it: when
    the compressor is installed and the header with [zip] true packs, the
    frames of [encode] with [compress = true] are that header and the
    compressed second frame of [encode] with [compress = false]. *)
Theorem compress_wraps_second_frame
        (m : t) (s : AbstractSerializer) (plain : bytes * bytes) (zipped_hb : bytes) :
  encode m s false = Ok plain ->
  has_snappy = true ->
  mpackb (header_of m true) = Ok zipped_hb ->
  encode m s true = Ok (zipped_hb, snappy_compress (snd plain)).
Proof.
  intros H Hs Hh. apply encode_Ok in H.
  destruct H as (mb & payload & packed & Hm & _ & Hp & Hd & _ & Hr).
  apply encode_Ok. exists mb, payload, packed.
  repeat apply conj; try assumption.
  - intros _. exact Hs.
  - cbn [snd]. rewrite Hr. reflexivity.
Qed.

(** X12.  For a FUNCTION or RESULT message, an exception raised by the
    serializer on the body is the exception [encode] raises, once the
    metadata and the header are packed: no frame is returned for a body
    that does not serialize. *)
Theorem encode_serializer_error
        (m : t) (s : AbstractSerializer) (compress : bool) (mb hb : bytes) (e : exn) :
  msgtype m = FUNCTION \/ msgtype m = RESULT ->
  metadata_buffer m mb ->
  mpackb (header_of m compress) = Ok hb ->
  s (body m) = Raise e ->
  encode m s compress = Raise e.
Proof.
  intros Ht Hm Hh Hs. unfold encode.
  assert (Em : match metadata m with
               | Some md => TupleEncodingMixin.encode md
               | None => Ok []
               end = Ok mb)
    by (revert Hm; unfold metadata_buffer; destruct (metadata m);
        [trivial | intros ->; reflexivity]).
  rewrite Em. cbn [bind]. rewrite Hh. cbn [bind].
  apply in_FUNCTION_RESULT_spec in Ht. rewrite Ht, Hs. reflexivity.
Qed.

(** X13.  For a FUNCTION or RESULT message, an exception raised by the
    deserializer on the ['body'] entry is the exception [decode] raises,
    once the frames are unpacked and the metadata is rebuilt. *)
Theorem decode_deserializer_error
        (raw : bytes * bytes) (d : AbstractDeserializer)
        (header data type_field meta raw_body : pyval) (ty : RPCMessageTypes)
        (md : option Metadata) (cls : MetadataClass) (e : exn) :
  unpacked_frames raw = Ok (header, data) ->
  getitem header "type" = Ok type_field ->
  RPCMessageTypes_call type_field = Ok ty ->
  ty = FUNCTION \/ ty = RESULT ->
  metadata_types_at ty = Ok cls ->
  getitem data "meta" = Ok meta ->
  TupleEncodingMixin.decode cls meta = Ok md ->
  getitem data "body" = Ok raw_body ->
  d raw_body = Raise e ->
  decode raw d = Raise e.
Proof.
  intros Hf Ht Hc Hty Hcls Hm Hmd Hb Hd.
  unfold unpacked_frames in Hf. do 4 unbind Hf. apply Ok_inj in Hf.
  injection Hf as <- <-.
  unfold decode. rewrite E. cbn [bind]. rewrite Ht. cbn [bind].
  rewrite Hc. cbn [bind]. rewrite E0. cbn [bind]. rewrite E1. cbn [bind].
  rewrite E2. cbn [bind]. rewrite Hcls. cbn [bind]. rewrite Hm. cbn [bind].
  rewrite Hmd. cbn [bind].
  apply in_FUNCTION_RESULT_spec in Hty. rewrite Hty, Hb. cbn [bind].
  rewrite Hd. reflexivity.
Qed.

(** X14.  With the compressor installed, a header whose [zip] is truthy
    (of any type: [True], a non-zero integer, a non-empty string) sends
    the second frame through the decompressor, and an exception raised
    there is the exception [decode] raises. *)
Theorem decode_decompressor_error
        (raw : bytes * bytes) (d : AbstractDeserializer)
        (header type_field zip : pyval) (ty : RPCMessageTypes) (e : exn) :
  has_snappy = true ->
  munpackb (fst raw) = Ok header ->
  getitem header "type" = Ok type_field ->
  RPCMessageTypes_call type_field = Ok ty ->
  getitem header "zip" = Ok zip ->
  truthy zip = true ->
  snappy_decompress (snd raw) = Raise e ->
  decode raw d = Raise e.
Proof.
  intros Hs Hh Ht Hc Hz Htz Hd. unfold decode.
  rewrite Hh. cbn [bind]. rewrite Ht. cbn [bind]. rewrite Hc. cbn [bind].
  rewrite Hz. cbn [bind]. rewrite Htz, Hs. cbn [negb]. rewrite Hd. reflexivity.
Qed.

(** X15.  The correlation triple and the type survive the wire: when the
    unpacker reads back the header the packer wrote, whatever [decode]
    returns for the frames of a message has that message's request id and
    type. *)
Theorem request_id_survives_wire
        (m m' : t) (s : AbstractSerializer) (d : AbstractDeserializer)
        (compress : bool) (raw : bytes * bytes) :
  encode m s compress = Ok raw ->
  munpackb (fst raw) = Ok (header_of m compress) ->
  decode raw d = Ok m' ->
  request_id m' = request_id m /\ msgtype m' = msgtype m.
Proof.
  intros _ Hu H. apply decode_Ok in H.
  destruct H as (header & data & ty & cls & meta & raw_body
                 & Hf & Ht & Hc & _ & _ & _ & _ & _ & Hme & Hok & Hsq).
  assert (header = header_of m compress).
  { unfold unpacked_frames in Hf. rewrite Hu in Hf. cbn [bind] in Hf.
    do 3 unbind Hf. apply Ok_inj in Hf. injection Hf as <- _. reflexivity. }
  subst header.
  destruct (getitem_header m compress) as (Gt & Gm & Go & Gs & _).
  rewrite Gt in Ht. rewrite Gm in Hme. rewrite Go in Hok. rewrite Gs in Hsq.
  apply Ok_inj in Ht, Hme, Hok, Hsq. subst ty.
  rewrite RPCMessageTypes_call_int in Hc. apply Ok_inj in Hc.
  unfold request_id. rewrite <- Hme, <- Hok, <- Hsq, <- Hc. split; reflexivity.
Qed.

End CompressedPath.

(** The zipped frames of a FUNCTION request are the zipped header and the
    compressed second frame of its plain frames. *)
Lemma compress_wraps_second_frame_witness :
  RPCMessage.encode (RT := with_snappy) request_add marking_serializer true
  = Ok (fst request_frames_zipped,
        Snappy.compress
          (snd (frames_of with_snappy request_add marking_serializer false))).
Proof.
  apply (compress_wraps_second_frame (RT := with_snappy) request_add marking_serializer
           (frames_of with_snappy request_add marking_serializer false)
           (fst request_frames_zipped)).
  - vm_compute. reflexivity.
  - reflexivity.
  - vm_compute. reflexivity.
Defined.

(** The marking serializer refuses a body that is not bytes. *)
Lemma encode_serializer_error_witness :
  RPCMessage.encode (RT := without_snappy) request_without_body marking_serializer false
  = Raise TypeError.
Proof.
  apply (encode_serializer_error (RT := without_snappy) request_without_body
           marking_serializer false [x90]
           (fst (frames_of without_snappy request_add marking_serializer false))).
  - left. reflexivity.
  - vm_compute. reflexivity.
  - vm_compute. reflexivity.
  - reflexivity.
Defined.

(** The marking deserializer refuses a payload without its mark: the
    frames of a request written with the identity serializer. *)
Lemma decode_deserializer_error_witness :
  RPCMessage.decode (RT := without_snappy)
    (frames_of without_snappy request_add noop false) marking_deserializer
  = Raise (ExternalError "ValueError").
Proof.
  apply (decode_deserializer_error (RT := without_snappy)
           (frames_of without_snappy request_add noop false) marking_deserializer
           (RPCMessage.header_of request_add false)
           (RPCMessage.data_of [x90] (PBytes [x92; x02; x03]))
           (PInt 0) (PBytes [x90]) (PBytes [x92; x02; x03]) FUNCTION
           (Some FunctionMetadata) cls_FunctionMetadata
           (ExternalError "ValueError")).
  - vm_compute. reflexivity.
  - reflexivity.
  - reflexivity.
  - left. reflexivity.
  - reflexivity.
  - reflexivity.
  - vm_compute. reflexivity.
  - reflexivity.
  - reflexivity.
Defined.

(** A header with [zip] true over a second frame that is not compressed
    data. *)
Lemma decode_decompressor_error_witness :
  RPCMessage.decode (RT := with_snappy) (zipped_header x01, bare_data) noop
  = Raise (ExternalError "snappy.UncompressError").
Proof.
  apply (decode_decompressor_error (RT := with_snappy)
           (zipped_header x01, bare_data) noop
           (PDict [ (PStr "type", PInt 1); (PStr "meth", PStr "f");
                    (PStr "okey", PStr "k"); (PStr "seq", PInt 1);
                    (PStr "zip", PBool true) ])
           (PInt 1) (PBool true) STREAM (ExternalError "snappy.UncompressError"));
    vm_compute; reflexivity.
Defined.

(** A result reply to a request, zipped, sent and decoded. *)
Lemma request_id_survives_wire_witness :
  RPCMessage.request_id (RPCMessage.result request_add (PBytes [x05]))
    = RPCMessage.request_id request_add /\
  RPCMessage.msgtype (RPCMessage.result request_add (PBytes [x05])) = RESULT.
Proof.
  apply (request_id_survives_wire (RT := with_snappy)
           (RPCMessage.result request_add (PBytes [x05]))
           (RPCMessage.result request_add (PBytes [x05]))
           marking_serializer marking_deserializer true
           (frames_of with_snappy (RPCMessage.result request_add (PBytes [x05]))
                      marking_serializer true));
    vm_compute; reflexivity.
Defined.

(* ===================================================================== *)
(** ** The error builders                                                 *)
(* ===================================================================== *)

(** X16.  [failure] and [error] need an exception being handled: with
    none, both raise [AttributeError]; with one, both return, and the two
    replies differ in their type tag and in nothing else. *)
Theorem error_builders_differ_by_tag (request : RPCMessage.t) :
  RPCMessage.failure None request = Raise AttributeError /\
  RPCMessage.error None request = Raise AttributeError /\
  forall exc_info,
    exists f e,
      RPCMessage.failure (Some exc_info) request = Ok f /\
      RPCMessage.error (Some exc_info) request = Ok e /\
      RPCMessage.msgtype f = FAILURE /\ RPCMessage.msgtype e = ERROR /\
      RPCMessage.request_id f = RPCMessage.request_id e /\
      RPCMessage.metadata f = RPCMessage.metadata e /\
      RPCMessage.body f = RPCMessage.body e /\
      f <> e.
Proof.
  split; [reflexivity |]. split; [reflexivity |].
  intros exc_info. do 2 eexists.
  split; [reflexivity |]. split; [reflexivity |].
  repeat split. discriminate.
Qed.
